(** * Character-level RNN lab notebook (tp_rnn.ipynb): model of the Python code

    The notebook drives TensorFlow, NumPy and pickle.  Those libraries are
    not part of the repository: they appear here as interfaces (type
    classes) whose operations are the calls the notebook makes.  The
    notebook's own control flow - the constructor's mode switch, the two
    loops of [Model.sample], [weighted_pick], the epoch and batch loops of
    the training cell, and the load-then-generate function of the sampling
    cell - is transcribed as monadic code over an explicit process state.

    The numbers [weighted_pick] computes with are NumPy's float32 and
    float64, that is IEEE 754 binary32 and binary64 with rounding to
    nearest even: the operations of the Standard Library's [SpecFloat].
    The learning rate and the clipping ceiling, which the notebook only
    hands to TensorFlow, are rationals. *)

From Stdlib Require Import QArith Ascii SpecFloat.
From Equations Require Import Equations.
From stdpp Require Import gmap strings list fin_maps pretty.

(** ** Python exceptions and the effect monad *)

(** The exception classes the notebook's code can raise by itself. *)
Inductive exn : Type :=
| IndexError   (* sequence index out of range *)
| KeyError     (* missing dictionary key *)
| IOError      (* open() on a missing file *)
| ValueError   (* a value of the wrong shape or content *)
| UnpicklingError (* [cPickle.load] on something that is not a pickle *)
| NameError    (* reading a variable that was never bound *)
| FrameworkError. (* raised inside a TensorFlow call *)

Inductive result (A : Type) : Type :=
| Return (a : A)
| Raise (e : exn).
Arguments Return {A} a.
Arguments Raise {A} e.

(** A computation reads and writes a process state [W]; the state reached
    when an exception escapes stays observable. *)
Definition Py (W A : Type) : Type := W → result A * W.

Definition py_ret {W A} (a : A) : Py W A := λ w, (Return a, w).

Definition py_bind {W A B} (f : A → Py W B) (m : Py W A) : Py W B :=
  λ w, match m w with
       | (Return a, w') => f a w'
       | (Raise e, w') => (Raise e, w')
       end.

Definition py_raise {W A} (e : exn) : Py W A := λ w, (Raise e, w).

Definition py_get {W} : Py W W := λ w, (Return w, w).

Definition py_modify {W} (f : W → W) : Py W unit := λ w, (Return tt, f w).

Global Instance Py_ret {W} : MRet (Py W) := @py_ret W.
Global Instance Py_bind {W} : MBind (Py W) := @py_bind W.

(** ** Python sequence and dictionary accesses *)

(** [l[i]] for a non-negative index. *)
Definition list_getitem {W A} (l : list A) (i : nat) : Py W A :=
  match l !! i with
  | Some a => mret a
  | None => py_raise IndexError
  end.

(** [d[k]]. *)
Definition dict_getitem {W} `{Countable K} {V} (d : gmap K V) (k : K) : Py W V :=
  match d !! k with
  | Some v => mret v
  | None => py_raise KeyError
  end.

(** [s[:-1]]: every character but the last; the empty string for a string
    of length 0 or 1. *)
Fixpoint str_but_last (s : string) : string :=
  match s with
  | EmptyString => EmptyString
  | String c EmptyString => EmptyString
  | String c s' => String c (str_but_last s')
  end.

Fixpoint str_last (s : string) : option ascii :=
  match s with
  | EmptyString => None
  | String c EmptyString => Some c
  | String c s' => str_last s'
  end.

(** [s[-1]]. *)
Definition str_getitem_last {W} (s : string) : Py W ascii :=
  match str_last s with
  | Some c => mret c
  | None => py_raise IndexError
  end.

(** ** IEEE 754 numbers *)

(** NumPy's [float32] and [float64]: binary32 (24 bits of precision,
    exponent of the infinities 128) and binary64 (53 and 1024). *)
Definition float32 : Type := spec_float.
Definition float64 : Type := spec_float.

Definition float32_add : float32 → float32 → float32 := SFadd 24 128.
Definition float64_mul : float64 → float64 → float64 := SFmul 53 1024.

(** Widening a [float32] to [float64]: the same number, in the binary64
    representation. *)
Definition float32_to_float64 (x : float32) : float64 :=
  match x with
  | S754_finite s m e => binary_round 53 1024 s m e
  | _ => x
  end.

Definition is_nan (x : spec_float) : bool :=
  match x with
  | S754_nan => true
  | _ => false
  end.

Definition is_zero (x : spec_float) : bool :=
  match x with
  | S754_zero _ => true
  | _ => false
  end.

(** [0 <= x]: a zero of either sign, a positive number or plus
    infinity. *)
Definition float_nonneg (x : spec_float) : bool := SFleb (S754_zero false) x.

(** Not below zero: a zero, a positive number, plus infinity - or NaN,
    which is below nothing. *)
Definition not_negative (x : spec_float) : bool :=
  match x with
  | S754_finite true _ _ | S754_infinity true => false
  | _ => true
  end.

(** [0 <= r < 1], the documented range of [np.random.rand]. *)
Definition unit_interval (r : float64) : bool :=
  SFleb (S754_zero false) r && SFltb r (S754_finite false (2 ^ 52) (-52)).

(** ** NumPy *)

(** The order NumPy sorts and searches floats by: [a < b], with NaN
    after every number. *)
Definition np_less (a b : float64) : bool :=
  SFltb a b || (is_nan b && negb (is_nan a)).

(** [np.cumsum] on a float32 vector: the first element, then each
    running sum plus the next element, rounded at every addition. *)
Fixpoint cumsum_from (acc : float32) (weights : list float32)
    : list float32 :=
  match weights with
  | [] => []
  | x :: rest => float32_add acc x :: cumsum_from (float32_add acc x) rest
  end.

Definition np_cumsum (weights : list float32) : list float32 :=
  match weights with
  | [] => []
  | x :: rest => x :: cumsum_from x rest
  end.

(** [np.sum] on a contiguous float32 vector does not add left to right:
    NumPy sums pairwise (the routine [FLOAT_pairwise_sum] of its
    arithmetic loops).  Fewer than 8 elements are added in order; up
    to 128 elements go into eight running sums [r[0..7]], element [i]
    into [r[i mod 8]], which are then added as
    [((r0+r1)+(r2+r3))+((r4+r5)+(r6+r7))] before the elements left over
    are added in order; a longer vector is split in two halves, the
    first of a length that is a multiple of 8, summed separately. *)
Fixpoint sum_blocks (r a : list float32) (blocks : nat) : list float32 :=
  match blocks with
  | O => r
  | S k => sum_blocks (zip_with float32_add r (take 8 a)) (drop 8 a) k
  end.

Definition pairwise_sum_unrolled (a : list float32) : float32 :=
  let n := length a in
  let full := n - n mod 8 in
  match sum_blocks (take 8 a) (drop 8 a) (full / 8 - 1) with
  | [r0; r1; r2; r3; r4; r5; r6; r7] =>
      let res :=
        float32_add
          (float32_add (float32_add r0 r1) (float32_add r2 r3))
          (float32_add (float32_add r4 r5) (float32_add r6 r7)) in
      fold_left float32_add (drop full a) res
  | _ => S754_zero false
  end.

Equations? pairwise_sum (a : list float32) : float32 by wf (length a) lt :=
  pairwise_sum a with decide (length a < 8) => {
    | left _ => fold_left float32_add a (S754_zero false)
    | right _ with decide (length a ≤ 128) => {
      | left _ => pairwise_sum_unrolled a
      | right _ =>
          let n2 := length a / 2 in
          let n2 := n2 - n2 mod 8 in
          float32_add (pairwise_sum (take n2 a)) (pairwise_sum (drop n2 a)) } }.
Proof.
  all: repeat match goal with x := _ |- _ => subst x end.
  all: pose proof (Nat.div_lt (length a) 2 ltac:(lia) ltac:(lia)).
  all: pose proof (Nat.div_le_lower_bound (length a) 2 64 ltac:(lia)
                     ltac:(lia)).
  all: pose proof (Nat.mod_upper_bound (length a / 2) 8 ltac:(lia)).
  - rewrite length_take. lia.
  - rewrite length_drop. lia.
Qed.

(** The reduction starts from the identity of the addition, 0. *)
Definition np_sum (weights : list float32) : float32 :=
  float32_add (S754_zero false) (pairwise_sum weights).

(** [np.searchsorted(a, v)] with the default [side='left']: NumPy's binary
    search over the index interval [lo, hi); the middle index is always
    inside the array when [hi] is at most its length. *)
Equations? binsearch_left (a : list float64) (v : float64) (lo hi : nat) : nat
  by wf (hi - lo) lt :=
  binsearch_left a v lo hi with decide (lo < hi) => {
    | right _ => lo
    | left _ =>
        let mid := lo + (hi - lo) / 2 in
        match a !! mid with
        | Some x => if np_less x v
                    then binsearch_left a v (S mid) hi
                    else binsearch_left a v lo mid
        | None => lo
        end }.
Proof.
  all: pose proof (Nat.Div0.div_lt_upper_bound (hi - lo) 2 (hi - lo)); lia.
Qed.

(** A float32 array searched for a float64 value is compared in
    float64. *)
Definition np_searchsorted (a : list float32) (v : float64) : nat :=
  binsearch_left (float32_to_float64 <$> a) v 0 (length a).

(** NumPy's global random generator: [np.random.rand(1)] returns one
    float64 sample and advances the generator. *)
Class NumpyRandom := {
  Rng : Type;
  random_sample : Rng → float64 * Rng;
}.

(** ** TensorFlow, as the notebook uses it *)

(** What a session computes from the graph the constructor builds.  The
    recurrent cell, the embedding, the softmax layer, the loss, the
    gradients and the optimizer are TensorFlow's (the notebook leaves the
    calls that create several of them to be completed); the notebook's
    code only evaluates them. *)
Class Tensorflow := {
  Params : Type;       (* values of the trainable variables *)
  RnnState : Type;     (* value of the recurrent state *)
  Batch : Type;        (* one (x, y) pair of integer grids *)
  Moments : Type;      (* slot variables of the Adam optimizer *)
  Gradients : Type;
  Loss : Type;         (* a float32 scalar *)
  (* [cell.zero_state(batch_size, tf.float32)], evaluated *)
  zero_state : Z → RnnState;
  (* inference graph (batch 1, length 1): [final_state] and [probs] for a
     fed character index and initial state *)
  eval_final_state : Params → nat → RnnState → RnnState;
  eval_probs : Params → nat → RnnState → list (list float32);
  (* training graph: [cost] and [final_state] for a fed batch and state *)
  eval_cost : Params → Batch → RnnState → Loss;
  eval_train_final_state : Params → Batch → RnnState → RnnState;
  (* [tf.gradients(cost, tvars)] *)
  tf_gradients : Params → Batch → RnnState → Gradients;
  (* [tf.clip_by_global_norm(grads, clip_norm)], first component *)
  tf_clip_by_global_norm : Gradients → Q → Gradients;
  (* [AdamOptimizer(lr).apply_gradients]: one update at learning rate lr *)
  adam_apply_gradients : Q → Moments → Gradients → Params → Params * Moments;
  (* [tf.global_variables_initializer()] under a graph-level seed *)
  initial_params : option Z → Params;
  initial_moments : Moments;
  (* whether the graph-construction calls of the constructor ([tf.split],
     [tf.get_variable], [cell.zero_state], ...) accept the dimensions
     batch_size, seq_length, vocab_size, rnn_size, num_layers *)
  graph_builds : Z → Z → Z → Z → Z → bool;
}.

(** [cPickle], on the values the notebook pickles. *)
#[warnings="-register-all"]
Inductive pyval : Type :=
| Py_int (z : Z)
| Py_chars (chars : list ascii)       (* a tuple of one-character strings *)
| Py_dict (d : gmap ascii nat)        (* a dict from characters to ints *)
| Py_tuple (items : list pyval).

Class Pickle := {
  pickle_data : Type;                  (* the serialized form *)
  pickle_dumps : pyval → pickle_data;
  pickle_loads : pickle_data → option pyval;
}.

(** What [cPickle] documents: loading a dump gives the value back. *)
Definition pickle_roundtrip `{Pickle} : Prop :=
  ∀ v, pickle_loads (pickle_dumps v) = Some v.

(** The two fetch lists [Model.sample] passes to [sess.run]. *)
Inductive fetches : Type :=
| Fetch_final_state          (* [self.final_state] *)
| Fetch_probs_final_state.   (* [self.probs, self.final_state] *)

Section Process.
Context `{NumpyRandom} `{Tensorflow} `{Pickle}.

(** A session: the current values of the graph's variables. *)
Record Session : Type := MkSession {
  sess_params : Params;
  sess_moments : Moments;
  sess_lr : Q;                     (* the variable [model.lr] *)
}.

(** One [sess.run(fetches, feed)] call with what it was fed: a character
    index and a state for the sampler, a batch and a state for the
    trainer, whose call also records the variables it ran on. *)
Inductive sess_call : Type :=
| SessCall (f : fetches) (x : nat) (state : RnnState)
| TrainCall (sess : Session) (xy : Batch) (state : RnnState).

(** Content of a file under the save directory. *)
Inductive file : Type :=
| Pickled (data : pickle_data)         (* written by [cPickle.dump] *)
| CheckpointIndex (latest : string)    (* TensorFlow's [checkpoint] file *)
| TensorIndex                          (* [model.ckpt-N.index] *)
| CheckpointData (p : Params)          (* [model.ckpt-N.data-00000-of-00001] *)
| MetaGraph                            (* [model.ckpt-N.meta] *)
| Text (s : string).                   (* [sample.txt] *)

(** A line printed on the console. *)
Inductive line : Type :=
| Line_progress (step total epoch : Z) (train_loss : Loss)
    (* "{}/{} (epoch {}), train_loss = {:.3f}" *)
| Line_text (s : string).

(** The state of the Python process and of its working directory. *)
Record world : Type := World {
  np_random : Rng;                 (* NumPy's global generator *)
  tf_random_seed : option Z;       (* graph-level seed of TensorFlow *)
  sess_calls : list sess_call;     (* [sess.run] calls given a feed, oldest
                                      first *)
  files : gmap string file;
  stdout : list line;              (* lines printed, oldest first *)
}.

Definition set_np_random (g : Rng) (w : world) : world :=
  World g (tf_random_seed w) (sess_calls w) (files w) (stdout w).
Definition set_tf_random_seed (s : option Z) (w : world) : world :=
  World (np_random w) s (sess_calls w) (files w) (stdout w).
Definition log_sess_call (c : sess_call) (w : world) : world :=
  World (np_random w) (tf_random_seed w) (sess_calls w ++ [c]) (files w)
        (stdout w).
Definition set_files (fs : gmap string file) (w : world) : world :=
  World (np_random w) (tf_random_seed w) (sess_calls w) fs (stdout w).
Definition print_line (s : line) (w : world) : world :=
  World (np_random w) (tf_random_seed w) (sess_calls w) (files w)
        (stdout w ++ [s]).

(** [np.random.rand(1)]: draws from the global generator. *)
Definition np_random_rand : Py world float64 :=
  λ w, let '(r, g) := random_sample (np_random w) in
       (Return r, set_np_random g w).

(** [sess.run([self.final_state], feed)] *)
Definition sess_run_final_state (sess : Session) (x : nat)
    (state : RnnState) : Py world RnnState :=
  _ ← py_modify (log_sess_call (SessCall Fetch_final_state x state));
  mret (eval_final_state (sess_params sess) x state).

(** [sess.run([self.probs, self.final_state], feed)] *)
Definition sess_run_probs_final_state (sess : Session) (x : nat)
    (state : RnnState) : Py world (list (list float32) * RnnState) :=
  _ ← py_modify (log_sess_call (SessCall Fetch_probs_final_state x state));
  mret (eval_probs (sess_params sess) x state,
        eval_final_state (sess_params sess) x state).

(** ** [Model.sample] *)

(** The nested function [weighted_pick].  [weights] is a row of the
    float32 matrix [probs]; the float64 sample times the float32 total is
    a float64 product. *)
Definition weighted_pick (weights : list float32) : Py world nat :=
  let t := np_cumsum weights in
  let s := np_sum weights in
  r ← np_random_rand;
  mret (np_searchsorted t (float64_mul r (float32_to_float64 s))).

(** [for char in prime[:-1]: ...], the loop that processes the prime
    sequence; [chars_left] is what remains to iterate over. *)
Fixpoint prime_loop (sess : Session) (vocab : gmap ascii nat)
    (chars_left : list ascii) (state : RnnState) : Py world RnnState :=
  match chars_left with
  | [] => mret state
  | char :: rest =>
      x ← dict_getitem vocab char;
      state ← sess_run_final_state sess x state;
      prime_loop sess vocab rest state
  end.

(** [for n in range(num): ...], the character-by-character generation
    loop; [iterations] is what remains of [range(num)]. *)
Fixpoint generation_loop (sess : Session) (chars : list ascii)
    (vocab : gmap ascii nat) (iterations : nat)
    (ret : string) (char : ascii) (state : RnnState) : Py world string :=
  match iterations with
  | O => mret ret
  | S rest =>
      x ← dict_getitem vocab char;
      '(probs, state) ← sess_run_probs_final_state sess x state;
      p ← list_getitem probs 0;
      sample ← weighted_pick p;
      pred ← list_getitem chars sample;
      let ret := ret +:+ String pred EmptyString in
      let char := pred in
      generation_loop sess chars vocab rest ret char state
  end.

Definition Model_sample (sess : Session) (chars : list ascii)
    (vocab : gmap ascii nat) (num : Z) (prime : string) : Py world string :=
  (* state = sess.run(self.cell.zero_state(1, tf.float32)) *)
  let state := zero_state 1%Z in
  state ← prime_loop sess vocab
            (String.list_ascii_of_string (str_but_last prime)) state;
  let ret := prime in
  char ← str_getitem_last prime;
  generation_loop sess chars vocab (Z.to_nat num) ret char state.

(** ** [Model.__init__] *)

(** The attributes of a constructed model that the notebook reads. *)
Record Model : Type := MkModel {
  model_batch_size : Z;
  model_seq_length : Z;
  model_vocab_size : Z;
  model_rnn_size : Z;
  model_num_layers : Z;
  model_initial_state : RnnState;    (* [self.initial_state], evaluated *)
}.

(** The constructor.  Of its arguments only the dimensions matter here:
    the mode switch is the notebook's own code, everything after it is a
    sequence of graph-construction calls into TensorFlow. *)
Definition Model_init (batch_size seq_length vocab_size : Z)
    (training : bool) : Py world Model :=
  let rnn_size := 128%Z in
  let num_layers := 1%Z in
  let '(batch_size, seq_length) :=
    if negb training then (1%Z, 1%Z) else (batch_size, seq_length) in
  if graph_builds batch_size seq_length vocab_size rnn_size num_layers
  then mret (MkModel batch_size seq_length vocab_size rnn_size num_layers
                     (zero_state batch_size))
  else py_raise FrameworkError.

(** [self.lr = tf.Variable(0.0, trainable=False)] *)
Definition Model_lr_initial : Q := 0%Q.

(** [self.train_op]: the gradients of the cost clipped by
    [tf.clip_by_global_norm(..., 5.)], applied by
    [tf.train.AdamOptimizer(self.lr)]. *)
Definition Model_train_op (sess : Session) (xy : Batch)
    (state : RnnState) : Session :=
  let tvars := sess_params sess in
  let grads := tf_clip_by_global_norm (tf_gradients tvars xy state) 5%Q in
  let '(tvars, moments) :=
    adam_apply_gradients (sess_lr sess) (sess_moments sess) grads tvars in
  MkSession tvars moments (sess_lr sess).

(** [tf.global_variables_initializer()], run in a fresh session. *)
Definition global_variables_initializer : Py world Session :=
  w ← py_get;
  mret (MkSession (initial_params (tf_random_seed w)) initial_moments
                  Model_lr_initial).

(** [tf.assign(model.lr, value)], run. *)
Definition assign_lr (value : Q) (sess : Session) : Session :=
  MkSession (sess_params sess) (sess_moments sess) value.

(** ** The data loader *)

(** Modelled from the spec: [utils.TextLoader] is imported by the
    notebook but its file is not part of the sources.  The spec's Batch
    Provider contract gives it a vocabulary, a count of batches per
    epoch, a cursor that can be reset to the start of the corpus, and a
    method returning the next batch pair. *)
Record TextLoader : Type := MkTextLoader {
  loader_chars : list ascii;
  loader_vocab : gmap ascii nat;
  loader_vocab_size : Z;
  loader_batches : list Batch;
  loader_pointer : nat;
}.

Definition num_batches (data_loader : TextLoader) : nat :=
  length (loader_batches data_loader).

Definition reset_batch_pointer (data_loader : TextLoader) : TextLoader :=
  MkTextLoader (loader_chars data_loader) (loader_vocab data_loader)
    (loader_vocab_size data_loader) (loader_batches data_loader) 0.

Definition next_batch (data_loader : TextLoader)
    : Py world (Batch * TextLoader) :=
  xy ← list_getitem (loader_batches data_loader)
                    (loader_pointer data_loader);
  mret (xy, MkTextLoader (loader_chars data_loader)
              (loader_vocab data_loader) (loader_vocab_size data_loader)
              (loader_batches data_loader)
              (S (loader_pointer data_loader))).

(** ** Files *)

Definition save_dir : string := "save".

(** [os.path.join(save_dir, name)] *)
Definition path_join (dir name : string) : string := dir +:+ "/" +:+ name.

(** [with open(path, 'wb') as f: cPickle.dump(v, f)] *)
Definition pickle_dump_to (path : string) (v : pyval) : Py world unit :=
  py_modify (λ w, set_files (<[path := Pickled (pickle_dumps v)]> (files w)) w).

(** [with open(path, 'rb') as f: cPickle.load(f)] *)
Definition pickle_load_from (path : string) : Py world pyval :=
  w ← py_get;
  match files w !! path with
  | None => py_raise IOError
  | Some (Pickled data) =>
      match pickle_loads data with
      | Some v => mret v
      | None => py_raise UnpicklingError
      end
  | Some _ => py_raise UnpicklingError
  end.

(** [saver.save(sess, checkpoint_path, global_step=step)]: a checkpoint
    is named by the prefix [checkpoint_path-step] and is made of three
    files, [prefix.index], [prefix.data-00000-of-00001] with the values
    of the variables, and [prefix.meta] with the graph; no file is named
    by the prefix alone.  The directory's [checkpoint] file then names
    the prefix as the latest checkpoint. *)
Definition saver_save (sess : Session) (checkpoint_path : string)
    (step : Z) : Py world unit :=
  let prefix := checkpoint_path +:+ "-" +:+ pretty step in
  py_modify (λ w,
    set_files
      (<[path_join save_dir "checkpoint" := CheckpointIndex prefix]>
         (<[prefix +:+ ".meta" := MetaGraph]>
            (<[prefix +:+ ".data-00000-of-00001" :=
                 CheckpointData (sess_params sess)]>
               (<[prefix +:+ ".index" := TensorIndex]> (files w)))))
      w).

(** [tf.train.get_checkpoint_state(save_dir)]: the prefix of the latest
    checkpoint; [None] without a readable [checkpoint] file; ValueError
    ("Invalid checkpoint state loaded from ...") when the file names no
    checkpoint. *)
Definition get_checkpoint_state (dir : string) : Py world (option string) :=
  w ← py_get;
  match files w !! path_join dir "checkpoint" with
  | Some (CheckpointIndex latest) =>
      if decide (latest = "") then py_raise ValueError
      else mret (Some latest)
  | _ => mret None
  end.

(** [saver.restore(sess, prefix)]: ValueError ("The passed save_path is
    not a valid checkpoint") without [prefix.index]; otherwise the
    variables are read from the data file. *)
Definition saver_restore (sess : Session) (prefix : string)
    : Py world Session :=
  w ← py_get;
  match files w !! (prefix +:+ ".index") with
  | Some TensorIndex =>
      match files w !! (prefix +:+ ".data-00000-of-00001") with
      | Some (CheckpointData p) =>
          mret (MkSession p (sess_moments sess) (sess_lr sess))
      | _ => py_raise FrameworkError
      end
  | _ => py_raise ValueError
  end.

(** [with codecs.open(path, "w", "utf-8-sig") as temp: temp.write(s)] *)
Definition write_text (path : string) (s : string) : Py world unit :=
  py_modify (λ w, set_files (<[path := Text s]> (files w)) w).

(** [print(...)] *)
Definition print (l : line) : Py world unit := py_modify (print_line l).

(** [tf.reset_default_graph()] drops the graph and its seed;
    [tf.set_random_seed(seed)] sets the seed of the new graph. *)
Definition tf_reset_default_graph : Py world unit :=
  py_modify (set_tf_random_seed None).
Definition tf_set_random_seed (seed : Z) : Py world unit :=
  py_modify (set_tf_random_seed (Some seed)).

(** ** The statements the notebook leaves to complete *)

(** Modelled from the spec: the statement missing under "Initialize the
    RNN model - To complete" in the configuration cell, the Sequence
    Model constructed in training mode,
    [model = Model(batch_size, seq_length, vocab_size)]. *)
Definition initialize_training_model (batch_size seq_length vocab_size : Z)
    : Py world Model :=
  Model_init batch_size seq_length vocab_size true.

(** Modelled from the spec: the statement missing under "Reset the batch
    pointer - To complete", RunEpoch's "resets the batch cursor to the
    start of the corpus", [data_loader.reset_batch_pointer()]. *)
Definition reset_the_batch_pointer (data_loader : TextLoader) : TextLoader :=
  reset_batch_pointer data_loader.

(** Modelled from the spec: the statement missing under "Load the current
    batch of data - To complete", the next batch pair of the Batch
    Provider, [x, y = data_loader.next_batch()]. *)
Definition load_current_batch (data_loader : TextLoader)
    : Py world (Batch * TextLoader) :=
  next_batch data_loader.

(** Modelled from the spec: the statement missing under "Run the model
    for the current batch - To complete", described by the notebook as
    "run the model to perform an optimization step on the current batch,
    and return the loss" and by the spec as an explicit state passed into
    and returned from each training step:
    [train_loss, state, _ = sess.run([model.cost, model.final_state,
    model.train_op], {input_data: x, targets: y, initial_state: state})]. *)
Definition sess_run_train (sess : Session) (xy : Batch) (state : RnnState)
    : Py world (Loss * RnnState * Session) :=
  _ ← py_modify (log_sess_call (TrainCall sess xy state));
  mret (eval_cost (sess_params sess) xy state,
        eval_train_final_state (sess_params sess) xy state,
        Model_train_op sess xy state).

(** Modelled from the spec: the statement missing under "Initialize the
    model - To complete" in the sampling cell, "the model initialization
    with training mode disabled". *)
Definition initialize_sampling_model (batch_size seq_length vocab_size : Z)
    : Py world Model :=
  Model_init batch_size seq_length vocab_size false.

(** Modelled from the spec: the statement missing under "Sample - To
    complete" in the sampling cell, "the generation procedure for the
    defined parameters",
    [sample_test = model.sample(sess, chars, vocab, n, prime)]. *)
Definition generate_sample_test (model : Model) (sess : Session)
    (chars : list ascii) (vocab : gmap ascii nat) (n : Z) (prime : string)
    : Py world string :=
  Model_sample sess chars vocab n prime.

(** ** The training cells *)

(** Second code cell of section 2.2: seeds the graph, builds the model
    for the loader's vocabulary and pickles the configuration and the
    vocabulary.  [batch_size] and [seq_length] are 32 and 50 in the
    notebook; the loader is the one the cell constructs. *)
Definition save_config (data_loader : TextLoader)
    (batch_size seq_length : Z) : Py world Model :=
  _ ← tf_reset_default_graph;
  _ ← tf_set_random_seed 100;
  let vocab_size := loader_vocab_size data_loader in
  model ← initialize_training_model batch_size seq_length vocab_size;
  _ ← pickle_dump_to (path_join save_dir "config.pkl")
        (Py_tuple [Py_int batch_size; Py_int seq_length; Py_int vocab_size]);
  _ ← pickle_dump_to (path_join save_dir "chars_vocab.pkl")
        (Py_tuple [Py_chars (loader_chars data_loader);
                   Py_dict (loader_vocab data_loader)]);
  mret model.

(** The variables of the training cell that outlive a loop iteration.
    [e] and [b] are unbound until their loop has run once. *)
Record train_vars : Type := TrainVars {
  tv_loader : TextLoader;
  tv_sess : Session;
  tv_losses : list Loss;
  tv_e : option nat;
  tv_b : option nat;
}.

(** [for b in range(data_loader.num_batches): ...] *)
Fixpoint batch_loop (num_epochs e : nat) (range_left : list nat)
    (state : RnnState) (vars : train_vars) : Py world train_vars :=
  match range_left with
  | [] => mret vars
  | b :: rest =>
      '(xy, data_loader) ← load_current_batch (tv_loader vars);
      '(train_loss, state, sess) ← sess_run_train (tv_sess vars) xy state;
      let losses := tv_losses vars ++ [train_loss] in
      let n := Z.of_nat (num_batches data_loader) in
      _ ← print (Line_progress (Z.of_nat e * n + Z.of_nat b)
                   (Z.of_nat num_epochs * n) (Z.of_nat e) train_loss);
      batch_loop num_epochs e rest state
        (TrainVars data_loader sess losses (Some e) (Some b))
  end.

(** [for e in range(num_epochs): ...] *)
Fixpoint epoch_loop (model : Model) (num_epochs : nat)
    (range_left : list nat) (vars : train_vars) : Py world train_vars :=
  match range_left with
  | [] => mret vars
  | e :: rest =>
      let data_loader := reset_the_batch_pointer (tv_loader vars) in
      let state := model_initial_state model in
      vars ← batch_loop num_epochs e (seq 0 (num_batches data_loader)) state
               (TrainVars data_loader (tv_sess vars) (tv_losses vars)
                          (Some e) (tv_b vars));
      epoch_loop model num_epochs rest vars
  end.

(** Reading a variable a loop may not have bound. *)
Definition read_name {A} (v : option A) : Py world A :=
  match v with
  | Some a => mret a
  | None => py_raise NameError
  end.

(** Training cell: returns the [losses] list and the session at the
    moment the checkpoint is written.  [num_epochs] is 10 in the
    notebook. *)
Definition train (model : Model) (data_loader : TextLoader)
    (num_epochs : nat) : Py world (list Loss * Session) :=
  sess ← global_variables_initializer;
  let sess := assign_lr (2 # 1000) sess in
  let losses := [] in
  vars ← epoch_loop model num_epochs (seq 0 num_epochs)
           (TrainVars data_loader sess losses None None);
  let checkpoint_path := path_join save_dir "model.ckpt" in
  e ← read_name (tv_e vars);
  b ← read_name (tv_b vars);
  _ ← saver_save (tv_sess vars) checkpoint_path
        (Z.of_nat e * Z.of_nat (num_batches (tv_loader vars)) + Z.of_nat b);
  _ ← print (Line_text ("model saved to " +:+ checkpoint_path));
  mret (tv_losses vars, tv_sess vars).

(** ** The sampling cell *)

(** [batch_size, seq_length, vocab_size = cPickle.load(f)] *)
Definition load_config : Py world (Z * Z * Z) :=
  v ← pickle_load_from (path_join save_dir "config.pkl");
  match v with
  | Py_tuple [Py_int batch_size; Py_int seq_length; Py_int vocab_size] =>
      mret (batch_size, seq_length, vocab_size)
  | _ => py_raise ValueError
  end.

(** [chars, vocab = cPickle.load(f)] *)
Definition load_chars_vocab : Py world (list ascii * gmap ascii nat) :=
  v ← pickle_load_from (path_join save_dir "chars_vocab.pkl");
  match v with
  | Py_tuple [Py_chars chars; Py_dict vocab] => mret (chars, vocab)
  | _ => py_raise ValueError
  end.

(** [def sample(n = 1000, prime = u' ')] *)
Definition sample (n : Z) (prime : string) : Py world unit :=
  _ ← tf_reset_default_graph;
  _ ← tf_set_random_seed 100;
  '(batch_size, seq_length, vocab_size) ← load_config;
  '(chars, vocab) ← load_chars_vocab;
  model ← initialize_sampling_model batch_size seq_length vocab_size;
  sess ← global_variables_initializer;
  ckpt ← get_checkpoint_state save_dir;
  match ckpt with
  | Some model_checkpoint_path =>
      if decide (model_checkpoint_path = "") then mret tt
      else
        sess ← saver_restore sess model_checkpoint_path;
        sample_test ← generate_sample_test model sess chars vocab n prime;
        _ ← write_text (path_join save_dir "sample.txt") sample_test;
        print (Line_text sample_test)
  | None => mret tt
  end.

End Process.

(** ** A small concrete instance

    Two characters, a uniform distribution, integer state and parameters:
    enough to run every definition above on concrete inputs.  The
    generator draws 0, 1/4, 1/2, 3/4 in turn. *)
Module Tiny.

(** The float64 number k/4. *)
Definition quarters (k : nat) : float64 :=
  binary_normalize 53 1024 (Z.of_nat k) (-2) false.

(** The float32 number 1/2. *)
Definition half : float32 := S754_finite false (2 ^ 23) (-24).

#[export] Instance numpy : NumpyRandom := {|
  Rng := nat;
  random_sample g := (quarters (g mod 4), S g);
|}.

#[export] Instance tensorflow : Tensorflow := {|
  Params := nat;
  RnnState := nat;
  Batch := nat;
  Moments := nat;
  Gradients := nat;
  Loss := option Q;                  (* [None] stands for NaN *)
  zero_state _ := 0;
  eval_final_state p x s := S (s + x);
  eval_probs p x s := [[half; half]];
  eval_cost p xy s := if Nat.eqb xy 0 then None else Some (Z.of_nat xy # 1);
  eval_train_final_state p xy s := S (s + xy);
  tf_gradients p xy s := xy;
  tf_clip_by_global_norm g c := g;
  adam_apply_gradients lr m g p := (S p, S m);
  initial_params seed := 0;
  initial_moments := 0;
  graph_builds b s v r l :=
    (0 <? b)%Z && (0 <? s)%Z && (0 <? v)%Z && (0 <? r)%Z && (0 <? l)%Z;
|}.

#[export] Instance pickle : Pickle := {|
  pickle_data := pyval;
  pickle_dumps v := v;
  pickle_loads d := Some d;
|}.

Definition chars : list ascii := ["a"; "b"]%char.
Definition vocab : gmap ascii nat := {[ "a"%char := 0; "b"%char := 1 ]}.

Definition sess : Session := MkSession 0 0 (2 # 1000).

Definition data_loader : TextLoader := MkTextLoader chars vocab 2 [0; 7] 0.

(** The model the training cell builds for this loader. *)
Definition model : Model := MkModel 32 50 2 128 1 0.

(** A fresh process whose generator is in state [g]: nothing on disk,
    nothing printed. *)
Definition world0 (g : nat) : world := World g None [] ∅ [].

(** The process after the configuration cell only, and after the
    configuration and training cells (two epochs). *)
Definition configured : world :=
  (save_config data_loader 32 50 (world0 0)).2.
Definition trained : world :=
  (train model data_loader 2 configured).2.

(** A fresh process started on the trained save directory. *)
Definition restarted (g : nat) : world := World g None [] (files trained) [].

(** Another process on the same save directory, with another graph seed
    and a history of its own. *)
Definition busy (g : nat) : world :=
  World g (Some 7%Z) [SessCall Fetch_final_state 0 0] (files trained)
        [Line_text "earlier output"].

End Tiny.

(** ** Runs in which rounding shows

    A generator whose next sample is [1 - 2^-30], a multiple of [2^-53]
    below 1 as [np.random.rand] draws them, and a model over twelve
    characters whose softmax layer returns the uniform distribution,
    twelve times the float32 nearest to 1/12, as it does on equal
    logits.  The rest is as in the small instance. *)
Module Rounding.

Definition numpy : NumpyRandom := {|
  Rng := unit;
  random_sample g := (S754_finite false (2 ^ 53 - 2 ^ 23) (-53), tt);
|}.

(** [np.float32(1/12)], bit pattern 0x3DAAAAAB: 11184811 * 2^-27. *)
Definition uniform : list float32 :=
  replicate 12 (S754_finite false 11184811 (-27)).

Definition tensorflow : Tensorflow := {|
  Params := nat;
  RnnState := nat;
  Batch := nat;
  Moments := nat;
  Gradients := nat;
  Loss := option Q;
  zero_state _ := 0;
  eval_final_state p x s := S (s + x);
  eval_probs p x s := [uniform];
  eval_cost p xy s := Some (Z.of_nat xy # 1);
  eval_train_final_state p xy s := S (s + xy);
  tf_gradients p xy s := xy;
  tf_clip_by_global_norm g c := g;
  adam_apply_gradients lr m g p := (S p, S m);
  initial_params seed := 0;
  initial_moments := 0;
  graph_builds b s v r l :=
    (0 <? b)%Z && (0 <? s)%Z && (0 <? v)%Z && (0 <? r)%Z && (0 <? l)%Z;
|}.

(** Eight weights that do not sum to 1: [np.float32(0.3)], bit pattern
    0x3E99999A, 10066330 * 2^-25. *)
Definition weights : list float32 :=
  replicate 8 (S754_finite false 10066330 (-25)).

Definition chars : list ascii :=
  ["a"; "b"; "c"; "d"; "e"; "f"; "g"; "h"; "i"; "j"; "k"; "l"]%char.

Definition vocab : gmap ascii nat := list_to_map (zip chars (seq 0 12)).

Definition sess : @Session tensorflow := @MkSession tensorflow 0 0 (2 # 1000).

Definition world0 : @world numpy tensorflow Tiny.pickle :=
  @World numpy tensorflow Tiny.pickle tt None [] ∅ [].

End Rounding.

(** ** The sampler as the spec words it

    Reference definitions that follow the spec's description of
    [Sample(primeText, count)]; [Model_sample] above is the code, and the
    two are compared below. *)
Section Reference.
Context `{NumpyRandom} `{Tensorflow} `{Pickle}.
Variables (params : Params) (chars : list ascii) (vocab : gmap ascii nat).

(** The index of a character; characters outside the vocabulary are not
    part of the spec's description. *)
Definition index_of (c : ascii) : nat := default 0 (vocab !! c).



(** The forward steps of the warm-up: state only, one per character. *)
Fixpoint warm_up_calls (cs : list ascii) (state : RnnState)
    : list sess_call :=
  match cs with
  | [] => []
  | c :: cs' =>
      SessCall Fetch_final_state (index_of c) state
      :: warm_up_calls cs' (eval_final_state params (index_of c) state)
  end.


(** A sampler call with the given fetch list. *)
Definition fetches_are (f : fetches) (call : sess_call) : Prop :=
  match call with
  | SessCall f' _ _ => f' = f
  | TrainCall _ _ _ => False
  end.

(** The process state after further [sess.run] calls. *)
Definition add_calls (calls : list sess_call) (w : world) : world :=
  World (np_random w) (tf_random_seed w) (sess_calls w ++ calls) (files w)
        (stdout w).

(** The generator after [count] draws. *)
Fixpoint draws (count : nat) (g : Rng) : Rng :=
  match count with
  | O => g
  | S count' => draws count' (random_sample g).2
  end.




End Reference.

(** ** The trainer as the spec words it

    [RunEpoch]: "resets recurrent state to zero; for each batch, in order:
    run the forward pass, compute loss, compute gradients, clip the global
    gradient norm to 5.0, apply the moment-based update with a fixed
    learning rate.  Returns the per-batch losses, in batch order."  The
    functions below unfold that description over the list of batches of
    one epoch, starting from session [sess] and recurrent state [state]. *)
Section TrainerReference.
Context `{NumpyRandom} `{Tensorflow} `{Pickle}.


Fixpoint epoch_calls (sess : Session) (state : RnnState)
    (batches : list Batch) : list sess_call :=
  match batches with
  | [] => []
  | xy :: rest =>
      TrainCall sess xy state
      :: epoch_calls (Model_train_op sess xy state)
           (eval_train_final_state (sess_params sess) xy state) rest
  end.

Fixpoint epoch_sess (sess : Session) (state : RnnState)
    (batches : list Batch) : Session :=
  match batches with
  | [] => sess
  | xy :: rest =>
      epoch_sess (Model_train_op sess xy state)
        (eval_train_final_state (sess_params sess) xy state) rest
  end.


Definition call_loss (call : sess_call) : option Loss :=
  match call with
  | TrainCall sess xy state => Some (eval_cost (sess_params sess) xy state)
  | SessCall _ _ _ => None
  end.

(** The progress lines of one epoch. *)
Fixpoint epoch_lines (num_epochs e n : nat) (range : list nat)
    (calls : list sess_call) : list line :=
  match range, calls with
  | b :: range', TrainCall sess xy state :: calls' =>
      Line_progress (Z.of_nat e * Z.of_nat n + Z.of_nat b)
        (Z.of_nat num_epochs * Z.of_nat n) (Z.of_nat e)
        (eval_cost (sess_params sess) xy state)
      :: epoch_lines num_epochs e n range' calls'
  | _, _ => []
  end.




(** All epochs: the calls of each epoch, and the session after them. *)
Fixpoint epochs_calls (model : Model) (batches : list Batch)
    (epochs : list nat) (sess : Session) : list (list sess_call) :=
  match epochs with
  | [] => []
  | e :: rest =>
      epoch_calls sess (model_initial_state model) batches
      :: epochs_calls model batches rest
           (epoch_sess sess (model_initial_state model) batches)
  end.

Fixpoint epochs_sess (model : Model) (batches : list Batch)
    (epochs : list nat) (sess : Session) : Session :=
  match epochs with
  | [] => sess
  | e :: rest =>
      epochs_sess model batches rest
        (epoch_sess sess (model_initial_state model) batches)
  end.

Fixpoint epochs_lines (model : Model) (batches : list Batch)
    (num_epochs : nat) (epochs : list nat) (sess : Session) : list line :=
  match epochs with
  | [] => []
  | e :: rest =>
      epoch_lines num_epochs e (length batches) (seq 0 (length batches))
        (epoch_calls sess (model_initial_state model) batches)
      ++ epochs_lines model batches num_epochs rest
           (epoch_sess sess (model_initial_state model) batches)
  end.

(** The session the training cell starts from: freshly initialized
    variables, then [model.lr] assigned 0.002. *)
Definition training_session (w : world) : Session :=
  assign_lr (2 # 1000)
    (MkSession (initial_params (tf_random_seed w)) initial_moments
               Model_lr_initial).

(** The loader with its cursor moved to [pointer]. *)
Definition loader_at (pointer : nat) (data_loader : TextLoader)
    : TextLoader :=
  MkTextLoader (loader_chars data_loader) (loader_vocab data_loader)
    (loader_vocab_size data_loader) (loader_batches data_loader) pointer.

(** The files after a checkpoint of the variables [p] has been saved
    under [prefix]. *)
Definition with_checkpoint (prefix : string) (p : Params)
    (fs : gmap string file) : gmap string file :=
  <[path_join save_dir "checkpoint" := CheckpointIndex prefix]>
    (<[prefix +:+ ".meta" := MetaGraph]>
       (<[prefix +:+ ".data-00000-of-00001" := CheckpointData p]>
          (<[prefix +:+ ".index" := TensorIndex]> fs))).

(** The process state after further calls and printed lines. *)
Definition add_calls_lines (calls : list sess_call) (lines : list line)
    (w : world) : world :=
  World (np_random w) (tf_random_seed w) (sess_calls w ++ calls) (files w)
        (stdout w ++ lines).

End TrainerReference.

(** ** Two runs side by side *)
Section TwoRuns.
Context `{NumpyRandom} `{Tensorflow} `{Pickle}.

(** Two process states with the same generator state, the same graph
    seed and the same files; their consoles and call logs may differ. *)
Definition agree (w1 w2 : world) : Prop :=
  np_random w1 = np_random w2 ∧
  tf_random_seed w1 = tf_random_seed w2 ∧
  files w1 = files w2.

(** A computation is reproducible when, run from two states that agree,
    it gives the same result, prints the same lines and leaves states
    that agree. *)
Definition reproducible {A} (m : Py world A) : Prop :=
  ∀ w1 w2, agree w1 w2 →
    ∃ out, (m w1).1 = (m w2).1 ∧ agree (m w1).2 (m w2).2 ∧
           stdout (m w1).2 = stdout w1 ++ out ∧
           stdout (m w2).2 = stdout w2 ++ out.

End TwoRuns.

(** * Properties *)

(** ** IEEE 754 helpers *)

(** The sign of a zero does not show in a comparison. *)
Lemma np_less_zero_l s1 s2 v :
  np_less (S754_zero s1) v = np_less (S754_zero s2) v.
Proof. by destruct v. Qed.

(** Adding a zero changes nothing a comparison can see. *)
Lemma float32_add_zero_r x s v :
  np_less (float32_to_float64 (float32_add x (S754_zero s))) v
  = np_less (float32_to_float64 x) v.
Proof.
  destruct x as [sx|sx| |sx m e]; try done.
  destruct sx, s; apply np_less_zero_l.
Qed.

Lemma float_nonneg_not_negative x :
  float_nonneg x = true → not_negative x = true.
Proof. by destruct x as [s|[]| |[] m e]. Qed.

(** Rounding keeps the sign. *)
Lemma binary_round_aux_not_negative prec emax m e l :
  not_negative (binary_round_aux prec emax false m e l) = true.
Proof.
  unfold binary_round_aux.
  destruct (shr_fexp prec emax m e l) as [mrs e'].
  destruct (shr_fexp prec emax _ e' loc_Exact) as [mrs' e''].
  destruct (shr_m mrs'); [done| |done].
  by destruct (Z.leb _ _).
Qed.

Lemma binary_round_not_negative prec emax m e :
  not_negative (binary_round prec emax false m e) = true.
Proof.
  unfold binary_round. destruct (shl_align _ _ _) as [mz ez].
  apply binary_round_aux_not_negative.
Qed.

Lemma float32_add_not_negative x y :
  not_negative x = true → not_negative y = true →
  not_negative (float32_add x y) = true.
Proof.
  destruct x as [sx|[]| |[] mx ex], y as [sy|[]| |[] my ey]; try done.
  - by destruct sx, sy.
  - intros _ _. unfold float32_add, SFadd, cond_Zopp, binary_normalize.
    destruct (shl_align mx ex _) as [a ?], (shl_align my ey _) as [b ?].
    simpl. apply binary_round_not_negative.
Qed.

Lemma float32_to_float64_not_negative x :
  not_negative x = true → not_negative (float32_to_float64 x) = true.
Proof.
  destruct x as [s|[]| |[] m e]; try done.
  intros _. apply binary_round_not_negative.
Qed.

Lemma np_less_not_negative_zero x z :
  not_negative x = true → is_zero z = true → np_less x z = false.
Proof. by destruct x as [s|[]| |[] m e], z. Qed.

(** ** NumPy helpers *)

Lemma cumsum_from_length acc weights :
  length (cumsum_from acc weights) = length weights.
Proof.
  revert acc. induction weights as [|x rest IH]; intros acc; simpl; [done|].
  by rewrite IH.
Qed.

Lemma np_cumsum_length weights : length (np_cumsum weights) = length weights.
Proof. destruct weights; simpl; [done|]. by rewrite cumsum_from_length. Qed.

(** Each running sum is the one before it plus the next weight. *)
Lemma cumsum_from_step acc weights i a x :
  cumsum_from acc weights !! i = Some a → weights !! S i = Some x →
  cumsum_from acc weights !! S i = Some (float32_add a x).
Proof.
  revert acc i. induction weights as [|w0 rest IH]; intros acc i; [done|].
  destruct i as [|i]; simpl.
  - intros [= <-] Hx. destruct rest as [|x' rest]; [done|].
    simpl in Hx. injection Hx as ->. reflexivity.
  - apply IH.
Qed.

Lemma np_cumsum_step weights i a x :
  np_cumsum weights !! i = Some a → weights !! S i = Some x →
  np_cumsum weights !! S i = Some (float32_add a x).
Proof.
  destruct weights as [|w0 rest]; [done|]. simpl.
  destruct i as [|i]; simpl.
  - intros [= <-] Hx. destruct rest as [|x' rest]; [done|].
    simpl in Hx. injection Hx as ->. reflexivity.
  - intros Ha Hx. by apply cumsum_from_step.
Qed.

(** Running sums of non-negative weights are not below zero. *)
Lemma cumsum_from_not_negative acc weights j y :
  not_negative acc = true → Forall (λ x, float_nonneg x = true) weights →
  cumsum_from acc weights !! j = Some y → not_negative y = true.
Proof.
  intros Hacc Hw. revert acc Hacc j.
  induction Hw as [|x rest Hx _ IH]; intros acc Hacc j; [done|].
  assert (not_negative (float32_add acc x) = true) as Hsum
    by (by apply float32_add_not_negative, float_nonneg_not_negative).
  destruct j as [|j]; simpl.
  - by intros [= <-].
  - by apply IH.
Qed.

Lemma np_cumsum_not_negative weights j y :
  Forall (λ x, float_nonneg x = true) weights →
  np_cumsum weights !! j = Some y → not_negative y = true.
Proof.
  intros Hw. destruct Hw as [|x rest Hx Hrest]; [done|].
  apply float_nonneg_not_negative in Hx.
  destruct j as [|j]; simpl.
  - by intros [= <-].
  - by apply cumsum_from_not_negative.
Qed.


(** When no element of the array is below [v], the binary search does not
    move its lower bound. *)
Lemma binsearch_left_stays a v lo hi :
  (∀ j x, a !! j = Some x → np_less x v = false) →
  binsearch_left a v lo hi = lo.
Proof.
  intros Hall. funelim (binsearch_left a v lo hi); [|done].
  clear Heqcall Heq.
  destruct (a !! (lo + (hi - lo) / 2)) as [y|] eqn:Hy; [|done].
  rewrite (Hall _ _ Hy). by eapply H0.
Qed.

(** Whatever the order of the array, the search ends between an element
    it found below [v] and one it found not below [v]. *)
Lemma binsearch_left_boundary a v lo hi :
  lo ≤ hi → hi ≤ length a →
  (∀ x, lo ≠ 0 → a !! (lo - 1) = Some x → np_less x v = true) →
  (∀ y, a !! hi = Some y → np_less y v = false) →
  (∀ x, binsearch_left a v lo hi ≠ 0 →
        a !! (binsearch_left a v lo hi - 1) = Some x → np_less x v = true) ∧
  (∀ y, a !! binsearch_left a v lo hi = Some y → np_less y v = false).
Proof.
  funelim (binsearch_left a v lo hi); intros Hlohi Hhi Hbelow Habove.
  - clear Heqcall Heq.
    assert (Hmid : lo ≤ lo + (hi - lo) / 2 < hi).
    { pose proof (Nat.Div0.div_lt_upper_bound (hi - lo) 2 (hi - lo)). lia. }
    destruct (a !! (lo + (hi - lo) / 2)) as [y|] eqn:Hy.
    2:{ apply lookup_ge_None_1 in Hy. exfalso. lia. }
    destruct (np_less y v) eqn:Hlt.
    + eapply H; eauto; [lia|].
      intros x _. rewrite Nat.sub_1_r, Nat.pred_succ, Hy. by intros [= <-].
    + eapply H0; eauto; [lia|lia|].
      by intros x [= <-].
  - assert (lo = hi) as -> by lia. by split.
Qed.

Lemma np_searchsorted_boundary a v :
  let i := np_searchsorted a v in
  (∀ x, i ≠ 0 → a !! (i - 1) = Some x
        → np_less (float32_to_float64 x) v = true) ∧
  (∀ y, a !! i = Some y → np_less (float32_to_float64 y) v = false).
Proof.
  unfold np_searchsorted.
  destruct (binsearch_left_boundary (float32_to_float64 <$> a) v 0 (length a))
    as [Hbelow Habove]; [lia|by rewrite length_fmap|done| |].
  { intros y Hy. apply lookup_lt_Some in Hy. rewrite length_fmap in Hy. lia. }
  split.
  - intros x Hi Hx. apply Hbelow; [done|].
    by rewrite list_lookup_fmap, Hx.
  - intros y Hy. apply Habove. by rewrite list_lookup_fmap, Hy.
Qed.


Section Sampler.
Context `{NumpyRandom} `{Tensorflow} `{Pickle}.

(** ** Stepping through monadic code *)

Lemma bind_Return {A B} (m : Py world A) (f : A → Py world B) w a w' :
  m w = (Return a, w') → (m ≫= f) w = f a w'.
Proof. intros Hm. unfold mbind, Py_bind, py_bind. by rewrite Hm. Qed.

Lemma bind_Raise {A B} (m : Py world A) (f : A → Py world B) w e w' :
  m w = (Raise e, w') → (m ≫= f) w = (Raise e, w').
Proof. intros Hm. unfold mbind, Py_bind, py_bind. by rewrite Hm. Qed.

Lemma bind_unfold {A B} (m : Py world A) (f : A → Py world B) w :
  (m ≫= f) w = match m w with
               | (Return a, w') => f a w'
               | (Raise e, w') => (Raise e, w')
               end.
Proof. reflexivity. Qed.

Lemma weighted_pick_run (weights : list float32) (w : world) :
  weighted_pick weights w =
  (Return (np_searchsorted (np_cumsum weights)
             (float64_mul (random_sample (np_random w)).1
                          (float32_to_float64 (np_sum weights)))),
   set_np_random (random_sample (np_random w)).2 w).
Proof.
  unfold weighted_pick, np_random_rand, mbind, Py_bind, py_bind.
  by destruct (random_sample (np_random w)).
Qed.

(** C10. With an empty prime, [prime[:-1]] is empty, the loop over it
    runs no iteration and does not fail, and [Model.sample] raises
    IndexError at [prime[-1]]: no character has been fed to the model, the
    generator has not been advanced and nothing has been written. *)
Theorem Model_sample_empty_prime (sess : Session) (chars : list ascii)
    (vocab : gmap ascii nat) (num : Z) (state : RnnState) (w : world) :
  str_but_last "" = "" ∧
  prime_loop sess vocab (String.list_ascii_of_string (str_but_last ""))
    state w = (Return state, w) ∧
  Model_sample sess chars vocab num "" w = (Raise IndexError, w).
Proof. done. Qed.

(** ** The two loops of [Model.sample] *)

Lemma add_calls_nil w : add_calls [] w = w.
Proof. destruct w. unfold add_calls. simpl. by rewrite app_nil_r. Qed.

Lemma add_calls_cons c calls w :
  add_calls calls (log_sess_call c w) = add_calls (c :: calls) w.
Proof.
  destruct w. unfold add_calls, log_sess_call. simpl.
  by rewrite <-app_assoc.
Qed.

Lemma index_of_lookup (vocab : gmap ascii nat) c x :
  vocab !! c = Some x → index_of vocab c = x.
Proof. intros Hx. unfold index_of. by rewrite Hx. Qed.

Lemma string_app_assoc (s1 s2 s3 : string) :
  (s1 +:+ s2) +:+ s3 = s1 +:+ (s2 +:+ s3).
Proof.
  induction s1 as [|c s1 IH]; [done|].
  change (String c ((s1 +:+ s2) +:+ s3) = String c (s1 +:+ (s2 +:+ s3))).
  by rewrite IH.
Qed.

Lemma string_app_nil_r (s : string) : s +:+ "" = s.
Proof.
  induction s as [|c s IH]; [done|].
  change (String c (s +:+ "") = String c s). by rewrite IH.
Qed.


Lemma str_last_is_Some (s : string) : s ≠ "" → is_Some (str_last s).
Proof.
  induction s as [|c s IH]; [done|]. intros _.
  destruct s as [|c' s]; [by eexists|]. by apply IH.
Qed.





Section Loops.
Variables (sess : Session) (chars : list ascii) (vocab : gmap ascii nat).

Lemma warm_up_calls_length cs state :
  length (warm_up_calls (sess_params sess) vocab cs state) = length cs.
Proof.
  revert state. induction cs as [|c cs IH]; intros state; [done|].
  simpl. by rewrite IH.
Qed.

Lemma warm_up_calls_fetches cs state :
  Forall (fetches_are Fetch_final_state)
         (warm_up_calls (sess_params sess) vocab cs state).
Proof.
  revert state. induction cs as [|c cs IH]; intros state; [done|].
  simpl. constructor; [done|apply IH].
Qed.




Lemma prime_loop_run cs state w :
  (∀ c, c ∈ cs → is_Some (vocab !! c)) →
  prime_loop sess vocab cs state w =
  (Return (fold_left
             (λ state c, eval_final_state (sess_params sess)
                           (index_of vocab c) state) cs state),
   add_calls (warm_up_calls (sess_params sess) vocab cs state) w).
Proof.
  revert state w. induction cs as [|c cs IH]; intros state w Hin.
  - simpl. by rewrite add_calls_nil.
  - destruct (Hin c) as [x Hx]; [by left|].
    cbn [prime_loop fold_left warm_up_calls].
    erewrite bind_Return;
      [|unfold dict_getitem; rewrite Hx; reflexivity].
    erewrite bind_Return; [|reflexivity].
    rewrite IH; [|intros c' Hc'; apply Hin; by right].
    rewrite (index_of_lookup _ _ _ Hx). by rewrite add_calls_cons.
Qed.

Hypothesis chars_in_vocab : ∀ c, c ∈ chars → is_Some (vocab !! c).



End Loops.

End Sampler.

Section Trainer.
Context `{NumpyRandom} `{Tensorflow} `{Pickle}.

Lemma add_calls_lines_nil w : add_calls_lines [] [] w = w.
Proof. destruct w. unfold add_calls_lines. simpl. by rewrite !app_nil_r. Qed.

Lemma add_calls_lines_cons c l calls lines w :
  add_calls_lines calls lines (print_line l (log_sess_call c w))
  = add_calls_lines (c :: calls) (l :: lines) w.
Proof.
  destruct w. unfold add_calls_lines, print_line, log_sess_call. simpl.
  by rewrite <-!app_assoc.
Qed.

Lemma add_calls_lines_app calls1 lines1 calls2 lines2 w :
  add_calls_lines calls2 lines2 (add_calls_lines calls1 lines1 w)
  = add_calls_lines (calls1 ++ calls2) (lines1 ++ lines2) w.
Proof.
  destruct w. unfold add_calls_lines. simpl. by rewrite <-!app_assoc.
Qed.

Lemma next_batch_run data_loader xy w :
  loader_batches data_loader !! loader_pointer data_loader = Some xy →
  next_batch data_loader w =
  (Return (xy, loader_at (S (loader_pointer data_loader)) data_loader), w).
Proof.
  intros Hxy. unfold next_batch, list_getitem. rewrite Hxy. reflexivity.
Qed.

(** The batch loop over [range], started with the cursor on the first
    of the batches [xs] it is going to read. *)
Lemma batch_loop_run num_epochs e range xs state vars w :
  tv_e vars = Some e →
  take (length range)
       (drop (loader_pointer (tv_loader vars))
             (loader_batches (tv_loader vars))) = xs →
  length xs = length range →
  let calls := epoch_calls (tv_sess vars) state xs in
  batch_loop num_epochs e range state vars w =
  (Return (TrainVars
             (loader_at (loader_pointer (tv_loader vars) + length range)
                        (tv_loader vars))
             (epoch_sess (tv_sess vars) state xs)
             (tv_losses vars ++ omap call_loss calls)
             (Some e)
             (match last range with Some b => Some b | None => tv_b vars end)),
   add_calls_lines calls
     (epoch_lines num_epochs e (num_batches (tv_loader vars)) range calls) w).
Proof.
  revert xs state vars w.
  induction range as [|b range IH]; intros xs state vars w He Hxs Hlen.
  - destruct xs; [|done]. simpl. rewrite add_calls_lines_nil, app_nil_r.
    destruct vars as [[] ? ? ? ?]. simpl in *. subst.
    unfold loader_at. simpl. by rewrite Nat.add_0_r.
  - destruct vars as [data_loader sess losses ve vb]. simpl in He, Hxs |- *.
    destruct (loader_batches data_loader !! loader_pointer data_loader)
      as [xy|] eqn:Hxy.
    2:{ apply lookup_ge_None_1 in Hxy. rewrite drop_ge in Hxs by done.
        subst xs. done. }
    rewrite (drop_S _ _ _ Hxy) in Hxs. simpl in Hxs. subst xs.
    erewrite bind_Return; [|by apply next_batch_run]. cbv beta iota.
    erewrite bind_Return; [|reflexivity]. cbv beta iota.
    erewrite bind_Return; [|reflexivity].
    rewrite (IH (take (length range)
                     (drop (S (loader_pointer data_loader))
                           (loader_batches data_loader)))); try done.
    2:{ simpl in Hlen. by injection Hlen. }
    cbn [tv_loader tv_sess tv_losses tv_b epoch_calls epoch_sess
         epoch_lines omap list_omap call_loss].
    rewrite add_calls_lines_cons, last_cons, <-app_assoc.
    change (loader_at ?p (loader_at ?q ?l)) with (loader_at p l).
    change (num_batches (loader_at ?q ?l)) with (num_batches l).
    change (loader_pointer (loader_at ?q ?l)) with q.
    replace (S (loader_pointer data_loader) + length range)
      with (loader_pointer data_loader + S (length range)) by lia.
    by destruct (last range).
Qed.

(** The epoch loop over [epochs]: every epoch rewinds the loader, starts
    from the model's initial state and reads all the batches. *)
Lemma epoch_loop_run model num_epochs epochs vars w :
  let batches := loader_batches (tv_loader vars) in
  ∃ data_loader',
    loader_batches data_loader' = batches ∧
    epoch_loop model num_epochs epochs vars w =
    (Return (TrainVars data_loader'
               (epochs_sess model batches epochs (tv_sess vars))
               (tv_losses vars
                ++ omap call_loss
                     (concat (epochs_calls model batches epochs
                                (tv_sess vars))))
               (match last epochs with
                | Some e => Some e
                | None => tv_e vars
                end)
               (match last epochs, last (seq 0 (length batches)) with
                | Some _, Some b => Some b
                | _, _ => tv_b vars
                end)),
     add_calls_lines
       (concat (epochs_calls model batches epochs (tv_sess vars)))
       (epochs_lines model batches num_epochs epochs (tv_sess vars)) w).
Proof.
  revert vars w. induction epochs as [|e epochs IH]; intros vars w batches.
  - exists (tv_loader vars). split; [done|]. simpl.
    rewrite add_calls_lines_nil, app_nil_r. by destruct vars.
  - destruct vars as [data_loader sess losses ve vb]. simpl in batches.
    cbn [epoch_loop tv_loader tv_sess tv_losses tv_b tv_e].
    unfold reset_the_batch_pointer.
    erewrite bind_Return.
    2:{ apply (batch_loop_run _ _ _ batches); [done| |].
        - cbn [tv_loader reset_batch_pointer loader_pointer loader_batches
               num_batches]. rewrite drop_0, length_seq. apply firstn_all.
        - cbn [tv_loader reset_batch_pointer loader_batches num_batches].
          by rewrite length_seq. }
    cbn [tv_loader tv_sess tv_losses tv_b tv_e].
    match goal with
    | |- context [epoch_loop _ _ _ ?v ?w1] =>
        destruct (IH v w1) as (data_loader' & Hb & ->)
    end.
    exists data_loader'. split; [done|].
    cbn [tv_loader tv_sess tv_losses tv_b tv_e loader_at loader_batches
         reset_batch_pointer epochs_calls epochs_sess epochs_lines concat
         num_batches].
    fold batches.
    rewrite add_calls_lines_app, omap_app, <-app_assoc, !last_cons.
    f_equal. f_equal.
    change (num_batches (reset_batch_pointer data_loader))
      with (length batches).
    destruct (last epochs); by destruct (last (seq 0 (length batches))).
Qed.











Lemma epoch_calls_length sess state xs :
  length (epoch_calls sess state xs) = length xs.
Proof.
  revert sess state. induction xs as [|xy xs IH]; intros sess state; [done|].
  simpl. by rewrite IH.
Qed.



Lemma epoch_losses_length sess state xs :
  length (omap call_loss (epoch_calls sess state xs)) = length xs.
Proof.
  revert sess state. induction xs as [|xy xs IH]; intros sess state; [done|].
  simpl. by rewrite IH.
Qed.

Lemma epochs_calls_total model batches epochs sess :
  length (concat (epochs_calls model batches epochs sess))
  = length epochs * length batches.
Proof.
  revert sess. induction epochs as [|e epochs IH]; intros sess; [done|].
  simpl. by rewrite length_app, IH, epoch_calls_length.
Qed.

Lemma epochs_losses_total model batches epochs sess :
  length (omap call_loss (concat (epochs_calls model batches epochs sess)))
  = length epochs * length batches.
Proof.
  revert sess. induction epochs as [|e epochs IH]; intros sess; [done|].
  simpl. by rewrite omap_app, length_app, IH, epoch_losses_length.
Qed.

Lemma last_seq_0 n : 0 < n → last (seq 0 n) = Some (n - 1).
Proof.
  destruct n as [|n]; [lia|]. intros _.
  rewrite seq_S, last_snoc. f_equal. lia.
Qed.

(** The whole training cell, when both loops run at least once. *)
Lemma train_run model data_loader num_epochs w :
  0 < num_epochs → 0 < num_batches data_loader →
  let batches := loader_batches data_loader in
  let epochs :=
    epochs_calls model batches (seq 0 num_epochs) (training_session w) in
  let sess' :=
    epochs_sess model batches (seq 0 num_epochs) (training_session w) in
  let step := (Z.of_nat (num_epochs - 1) * Z.of_nat (length batches)
               + Z.of_nat (length batches - 1))%Z in
  let prefix := path_join save_dir "model.ckpt" +:+ "-" +:+ pretty step in
  train model data_loader num_epochs w =
  (Return (omap call_loss (concat epochs), sess'),
   World (np_random w) (tf_random_seed w) (sess_calls w ++ concat epochs)
     (with_checkpoint prefix (sess_params sess') (files w))
     (stdout w
      ++ epochs_lines model batches num_epochs (seq 0 num_epochs)
           (training_session w)
      ++ [Line_text ("model saved to " +:+ path_join save_dir "model.ckpt")])).
Proof.
  intros HE Hn batches epochs sess' step prefix. unfold train. cbv zeta.
  erewrite bind_Return; [|reflexivity].
  destruct (epoch_loop_run model num_epochs (seq 0 num_epochs)
              (TrainVars data_loader (training_session w) [] None None) w)
    as (data_loader' & Hb & Hrun).
  erewrite bind_Return; [|exact Hrun]. clear Hrun.
  cbn [tv_loader tv_sess tv_losses tv_e tv_b] in *.
  rewrite (last_seq_0 num_epochs HE), (last_seq_0 (length _) Hn).
  erewrite bind_Return; [|reflexivity].
  erewrite bind_Return; [|reflexivity].
  erewrite bind_Return; [|reflexivity].
  erewrite bind_Return; [|reflexivity].
  unfold num_batches. rewrite Hb.
  destruct w. unfold add_calls_lines, mret, Py_ret, py_ret, print_line,
    set_files.
  cbn [np_random tf_random_seed sess_calls files stdout].
  by rewrite <-app_assoc.
Qed.

(** The files of a checkpoint have names of their own. *)
Lemma checkpoint_file_not_other (step : Z) suffix name :
  name = "config.pkl" ∨ name = "chars_vocab.pkl" ∨ name = "checkpoint"
  ∨ name = "sample.txt" →
  (path_join save_dir "model.ckpt" +:+ "-" +:+ pretty step) +:+ suffix
  ≠ path_join save_dir name.
Proof.
  intros [->|[->|[->| ->]]];
    cbv beta iota delta [path_join save_dir String.append]; discriminate.
Qed.

Lemma with_checkpoint_state prefix p fs :
  with_checkpoint prefix p fs !! path_join save_dir "checkpoint"
  = Some (CheckpointIndex prefix).
Proof. apply lookup_insert_eq. Qed.

Lemma with_checkpoint_index (step : Z) p fs :
  let prefix := path_join save_dir "model.ckpt" +:+ "-" +:+ pretty step in
  with_checkpoint prefix p fs !! (prefix +:+ ".index") = Some TensorIndex.
Proof.
  intros prefix. unfold with_checkpoint.
  rewrite lookup_insert_ne
    by (apply not_eq_sym, checkpoint_file_not_other; auto).
  rewrite lookup_insert_ne by (by intros Heq%(inj (String.append _))).
  rewrite lookup_insert_ne by (by intros Heq%(inj (String.append _))).
  apply lookup_insert_eq.
Qed.

Lemma with_checkpoint_data (step : Z) p fs :
  let prefix := path_join save_dir "model.ckpt" +:+ "-" +:+ pretty step in
  with_checkpoint prefix p fs !! (prefix +:+ ".data-00000-of-00001")
  = Some (CheckpointData p).
Proof.
  intros prefix. unfold with_checkpoint.
  rewrite lookup_insert_ne
    by (apply not_eq_sym, checkpoint_file_not_other; auto).
  rewrite lookup_insert_ne by (by intros Heq%(inj (String.append _))).
  apply lookup_insert_eq.
Qed.

(** Saving a checkpoint leaves the pickles and [sample.txt] alone. *)
Lemma with_checkpoint_other (step : Z) p fs name :
  name = "config.pkl" ∨ name = "chars_vocab.pkl" ∨ name = "sample.txt" →
  let prefix := path_join save_dir "model.ckpt" +:+ "-" +:+ pretty step in
  with_checkpoint prefix p fs !! path_join save_dir name
  = fs !! path_join save_dir name.
Proof.
  intros Hname prefix. unfold with_checkpoint.
  rewrite lookup_insert_ne by (by destruct Hname as [->|[->| ->]]).
  assert (Hne : ∀ suffix, prefix +:+ suffix ≠ path_join save_dir name).
  { intros suffix. apply checkpoint_file_not_other. tauto. }
  by rewrite !lookup_insert_ne by apply Hne.
Qed.

End Trainer.

Section TrainerClaims.
Context `{NumpyRandom} `{Tensorflow} `{Pickle}.




End TrainerClaims.

Section SamplingCell.
Context `{NumpyRandom} `{Tensorflow} `{Pickle}.

Lemma pickle_load_from_run path data v w :
  files w !! path = Some (Pickled data) → pickle_loads data = Some v →
  pickle_load_from path w = (Return v, w).
Proof.
  intros Hf Hv. unfold pickle_load_from, mbind, Py_bind, py_bind, py_get.
  by rewrite Hf, Hv.
Qed.

Lemma load_config_run data batch_size seq_length vocab_size w :
  files w !! path_join save_dir "config.pkl" = Some (Pickled data) →
  pickle_loads data
    = Some (Py_tuple [Py_int batch_size; Py_int seq_length;
                      Py_int vocab_size]) →
  load_config w = (Return (batch_size, seq_length, vocab_size), w).
Proof.
  intros Hf Hv. unfold load_config.
  by erewrite bind_Return; [|by eapply pickle_load_from_run].
Qed.

Lemma load_chars_vocab_run data chars vocab w :
  files w !! path_join save_dir "chars_vocab.pkl" = Some (Pickled data) →
  pickle_loads data = Some (Py_tuple [Py_chars chars; Py_dict vocab]) →
  load_chars_vocab w = (Return (chars, vocab), w).
Proof.
  intros Hf Hv. unfold load_chars_vocab.
  by erewrite bind_Return; [|by eapply pickle_load_from_run].
Qed.

Lemma get_checkpoint_state_run dir w :
  get_checkpoint_state dir w =
  (match files w !! path_join dir "checkpoint" with
   | Some (CheckpointIndex latest) =>
       if decide (latest = "") then Raise ValueError
       else Return (Some latest)
   | _ => Return None
   end, w).
Proof.
  unfold get_checkpoint_state, mbind, Py_bind, py_bind, py_get.
  destruct (files w !! path_join dir "checkpoint") as [[|latest| | | |]|];
    try done.
  by destruct (decide (latest = "")).
Qed.

Lemma saver_restore_run sess prefix p w :
  files w !! (prefix +:+ ".index") = Some TensorIndex →
  files w !! (prefix +:+ ".data-00000-of-00001") = Some (CheckpointData p) →
  saver_restore sess prefix w
  = (Return (MkSession p (sess_moments sess) (sess_lr sess)), w).
Proof.
  intros Hidx Hdata. unfold saver_restore, mbind, Py_bind, py_bind, py_get.
  by rewrite Hidx, Hdata.
Qed.

(** The sampling cell up to its test for a checkpoint. *)
Lemma sample_run n prime w d1 d2 batch_size seq_length vocab_size chars vocab :
  files w !! path_join save_dir "config.pkl" = Some (Pickled d1) →
  pickle_loads d1
    = Some (Py_tuple [Py_int batch_size; Py_int seq_length;
                      Py_int vocab_size]) →
  files w !! path_join save_dir "chars_vocab.pkl" = Some (Pickled d2) →
  pickle_loads d2 = Some (Py_tuple [Py_chars chars; Py_dict vocab]) →
  graph_builds 1 1 vocab_size 128 1 = true →
  let w1 := set_tf_random_seed (Some 100%Z) w in
  let sess := MkSession (initial_params (Some 100%Z)) initial_moments
                        Model_lr_initial in
  sample n prime w =
  match files w !! path_join save_dir "checkpoint" with
  | Some (CheckpointIndex model_checkpoint_path) =>
      if decide (model_checkpoint_path = "") then (Raise ValueError, w1)
      else
        (sess ← saver_restore sess model_checkpoint_path;
         sample_test ← Model_sample sess chars vocab n prime;
         _ ← write_text (path_join save_dir "sample.txt") sample_test;
         print (Line_text sample_test)) w1
  | _ => (Return tt, w1)
  end.
Proof.
  intros Hf1 Hv1 Hf2 Hv2 Hg w1 sess. unfold sample.
  erewrite bind_Return; [|reflexivity].
  erewrite bind_Return; [|reflexivity].
  erewrite bind_Return; [|by eapply load_config_run]. cbv beta iota.
  erewrite bind_Return; [|by eapply load_chars_vocab_run]. cbv beta iota.
  erewrite bind_Return;
    [|unfold initialize_training_model, initialize_sampling_model,
        Model_init; cbn [negb]; rewrite Hg; reflexivity].
  erewrite bind_Return; [|reflexivity].
  rewrite bind_unfold, get_checkpoint_state_run.
  change (files (set_tf_random_seed _ (set_tf_random_seed _ w)))
    with (files w).
  destruct (files w !! path_join save_dir "checkpoint")
    as [[|latest| | | |]|]; try reflexivity.
  destruct (decide (latest = "")) as [|Hne]; [reflexivity|].
  by destruct (decide (latest = "")).
Qed.

(** C8 (amended).  With the pickled configuration and vocabulary in the
    save directory and a model that builds: when the directory has no
    checkpoint, [sample] returns normally, raising nothing, and has
    generated, written and printed nothing; when it has one (the
    directory's [checkpoint] file names a prefix whose index and data
    files are there), the variables are restored from it and
    [Model.sample] runs on the restored variables, its text being
    written to [sample.txt] and printed. *)
Theorem sample_without_checkpoint_is_silent (n : Z) (prime : string)
    (w : world) d1 d2 batch_size seq_length vocab_size chars vocab :
  files w !! path_join save_dir "config.pkl" = Some (Pickled d1) →
  pickle_loads d1
    = Some (Py_tuple [Py_int batch_size; Py_int seq_length;
                      Py_int vocab_size]) →
  files w !! path_join save_dir "chars_vocab.pkl" = Some (Pickled d2) →
  pickle_loads d2 = Some (Py_tuple [Py_chars chars; Py_dict vocab]) →
  graph_builds 1 1 vocab_size 128 1 = true →
  let w1 := set_tf_random_seed (Some 100%Z) w in
  (files w !! path_join save_dir "checkpoint" = None →
   sample n prime w = (Return tt, w1) ∧
   files w1 = files w ∧ stdout w1 = stdout w ∧
   sess_calls w1 = sess_calls w ∧ np_random w1 = np_random w) ∧
  (∀ path p,
     files w !! path_join save_dir "checkpoint"
       = Some (CheckpointIndex path) →
     path ≠ "" →
     files w !! (path +:+ ".index") = Some TensorIndex →
     files w !! (path +:+ ".data-00000-of-00001")
       = Some (CheckpointData p) →
     sample n prime w =
     match Model_sample (MkSession p initial_moments Model_lr_initial)
                        chars vocab n prime w1 with
     | (Return sample_test, w2) =>
         (Return tt,
          print_line (Line_text sample_test)
            (set_files (<[path_join save_dir "sample.txt" := Text sample_test]>
                          (files w2)) w2))
     | (Raise e, w2) => (Raise e, w2)
     end).
Proof.
  intros Hf1 Hv1 Hf2 Hv2 Hg w1. split.
  - intros Hnone. erewrite sample_run by done. by rewrite Hnone.
  - intros path p Hstate Hpath Hidx Hdata. erewrite sample_run by done.
    rewrite Hstate. destruct (decide (path = "")) as [|_]; [done|].
    erewrite bind_Return; [|by apply saver_restore_run].
    cbn [sess_moments sess_lr]. subst w1. rewrite bind_unfold.
    by destruct (Model_sample _ chars vocab n prime _) as [[text|e] w2].
Qed.

Lemma save_config_run data_loader batch_size seq_length w :
  graph_builds batch_size seq_length (loader_vocab_size data_loader) 128 1
    = true →
  save_config data_loader batch_size seq_length w =
  (Return (MkModel batch_size seq_length (loader_vocab_size data_loader)
                   128 1 (zero_state batch_size)),
   World (np_random w) (Some 100%Z) (sess_calls w)
     (<[path_join save_dir "chars_vocab.pkl" :=
          Pickled (pickle_dumps
                     (Py_tuple [Py_chars (loader_chars data_loader);
                                Py_dict (loader_vocab data_loader)]))]>
        (<[path_join save_dir "config.pkl" :=
             Pickled (pickle_dumps
                        (Py_tuple [Py_int batch_size; Py_int seq_length;
                                   Py_int (loader_vocab_size data_loader)]))]>
           (files w)))
     (stdout w)).
Proof.
  intros Hg. unfold save_config. cbv zeta.
  erewrite bind_Return; [|reflexivity].
  erewrite bind_Return; [|reflexivity].
  erewrite bind_Return;
    [|unfold initialize_training_model, initialize_sampling_model,
        Model_init; cbn [negb]; rewrite Hg; reflexivity].
  reflexivity.
Qed.

(** C4.  After the configuration cell and the training cell have run,
    what the sampling cell loads is what they saved: the
    (batch_size, seq_length, vocab_size) tuple, the characters and the
    character-to-index mapping are read back unchanged, the latest
    checkpoint exists, and restoring it gives variables equal to the
    trained ones, hence the same forward outputs on every input. *)
Theorem checkpoint_roundtrip (data_loader : TextLoader)
    (batch_size seq_length : Z) (num_epochs : nat) (w0 : world) :
  pickle_roundtrip →
  graph_builds batch_size seq_length (loader_vocab_size data_loader) 128 1
    = true →
  0 < num_epochs → 0 < num_batches data_loader →
  ∃ model w1 losses trained w2 path,
    save_config data_loader batch_size seq_length w0 = (Return model, w1) ∧
    train model data_loader num_epochs w1 = (Return (losses, trained), w2) ∧
    load_config w2
      = (Return (batch_size, seq_length, loader_vocab_size data_loader), w2) ∧
    load_chars_vocab w2
      = (Return (loader_chars data_loader, loader_vocab data_loader), w2) ∧
    get_checkpoint_state save_dir w2 = (Return (Some path), w2) ∧
    path ≠ "" ∧
    ∀ sess, ∃ restored,
      saver_restore sess path w2 = (Return restored, w2) ∧
      sess_params restored = sess_params trained ∧
      ∀ x state,
        eval_probs (sess_params restored) x state
          = eval_probs (sess_params trained) x state ∧
        eval_final_state (sess_params restored) x state
          = eval_final_state (sess_params trained) x state.
Proof.
  intros Hpickle Hg HE Hn.
  eexists _, _, _, _, _, _.
  split; [by apply save_config_run|].
  split; [by apply train_run|].
  assert (Hpath : ∀ step : Z,
    path_join save_dir "model.ckpt" +:+ "-" +:+ pretty step ≠ "").
  { intros step.
    cbv beta iota delta [path_join save_dir String.append]. discriminate. }
  split; [|split; [|split; [|split]]].
  - eapply load_config_run; [|apply Hpickle]. cbn [files].
    rewrite with_checkpoint_other by auto.
    rewrite lookup_insert_ne by done.
    apply lookup_insert_eq.
  - eapply load_chars_vocab_run; [|apply Hpickle]. cbn [files].
    rewrite with_checkpoint_other by auto.
    apply lookup_insert_eq.
  - rewrite get_checkpoint_state_run. cbn [files].
    rewrite with_checkpoint_state.
    by destruct (decide _) as [?%Hpath|].
  - apply Hpath.
  - intros sess. eexists. split.
    + apply saver_restore_run; cbn [files].
      * apply with_checkpoint_index.
      * apply with_checkpoint_data.
    + done.
Qed.

End SamplingCell.

Section Reproducibility.
Context `{NumpyRandom} `{Tensorflow} `{Pickle}.

Lemma reproducible_ret {A} (a : A) : reproducible (mret a).
Proof. intros w1 w2 Hw. exists []. by rewrite !app_nil_r. Qed.

Lemma reproducible_raise {A} e : reproducible (@py_raise world A e).
Proof. intros w1 w2 Hw. exists []. by rewrite !app_nil_r. Qed.

Lemma reproducible_bind {A B} (m : Py world A) (f : A → Py world B) :
  reproducible m → (∀ a, reproducible (f a)) → reproducible (m ≫= f).
Proof.
  intros Hm Hf w1 w2 Hw.
  destruct (Hm w1 w2 Hw) as (out1 & Hr & Hw' & Ho1 & Ho2).
  unfold mbind, Py_bind, py_bind.
  destruct (m w1) as [[a1|e1] w1'], (m w2) as [[a2|e2] w2'];
    simpl in Hr; try done.
  - injection Hr as ->.
    destruct (Hf a2 w1' w2' Hw') as (out2 & Hr2 & Hw2 & Ho3 & Ho4).
    exists (out1 ++ out2). simpl in Ho1, Ho2.
    rewrite Ho3, Ho4, Ho1, Ho2, <-!app_assoc. done.
  - injection Hr as ->. by exists out1.
Qed.

(** A step that changes neither the generator, the seed, the files nor
    the console. *)
Lemma reproducible_log c : reproducible (py_modify (log_sess_call c)).
Proof. intros w1 w2 Hw. exists []. by rewrite !app_nil_r. Qed.

Lemma reproducible_print l : reproducible (print l).
Proof. intros w1 w2 Hw. by exists [l]. Qed.

Lemma reproducible_rand : reproducible np_random_rand.
Proof.
  intros w1 w2 (Hg & Hs & Hf). exists [].
  unfold np_random_rand. rewrite Hg.
  destruct (random_sample (np_random w2)). by rewrite !app_nil_r.
Qed.

Lemma reproducible_write_text path s : reproducible (write_text path s).
Proof.
  intros w1 w2 (Hg & Hs & Hf). exists []. unfold write_text, py_modify.
  simpl. rewrite Hf, !app_nil_r. done.
Qed.

Lemma reproducible_set_seed seed :
  reproducible (py_modify (set_tf_random_seed seed)).
Proof.
  intros w1 w2 (Hg & Hs & Hf). exists []. by rewrite !app_nil_r.
Qed.

Lemma reproducible_pickle_load path : reproducible (pickle_load_from path).
Proof.
  intros w1 w2 (Hg & Hs & Hf). exists [].
  unfold pickle_load_from, mbind, Py_bind, py_bind, py_get. rewrite Hf.
  rewrite !app_nil_r.
  destruct (files w2 !! path) as [[data| | | | |]|]; try done.
  by destruct (pickle_loads data).
Qed.

Lemma reproducible_initializer : reproducible global_variables_initializer.
Proof.
  intros w1 w2 (Hg & Hs & Hf). exists [].
  unfold global_variables_initializer, mbind, Py_bind, py_bind, py_get.
  rewrite Hs, !app_nil_r. done.
Qed.

Lemma reproducible_get_checkpoint dir :
  reproducible (get_checkpoint_state dir).
Proof.
  intros w1 w2 (Hg & Hs & Hf). exists [].
  rewrite !get_checkpoint_state_run, Hf, !app_nil_r. done.
Qed.

Lemma reproducible_restore sess path : reproducible (saver_restore sess path).
Proof.
  intros w1 w2 (Hg & Hs & Hf). exists [].
  unfold saver_restore, mbind, Py_bind, py_bind, py_get. rewrite Hf.
  rewrite !app_nil_r.
  destruct (files w2 !! (path +:+ ".index")) as [[]|]; try done.
  by destruct (files w2 !! (path +:+ ".data-00000-of-00001")) as [[]|].
Qed.

Lemma reproducible_dict_getitem (vocab : gmap ascii nat) c :
  reproducible (dict_getitem vocab c).
Proof.
  unfold dict_getitem.
  destruct (vocab !! c); [apply reproducible_ret|apply reproducible_raise].
Qed.

Lemma reproducible_list_getitem {A} (l : list A) i :
  reproducible (list_getitem l i).
Proof.
  unfold list_getitem.
  destruct (l !! i); [apply reproducible_ret|apply reproducible_raise].
Qed.

Lemma reproducible_prime_loop sess vocab cs state :
  reproducible (prime_loop sess vocab cs state).
Proof.
  revert state. induction cs as [|c cs IH]; intros state.
  - apply reproducible_ret.
  - cbn [prime_loop].
    apply reproducible_bind; [apply reproducible_dict_getitem|intros x].
    apply reproducible_bind; [|intros state'; apply IH].
    apply reproducible_bind; [apply reproducible_log|intros _].
    apply reproducible_ret.
Qed.

Lemma reproducible_generation_loop sess chars vocab k ret c state :
  reproducible (generation_loop sess chars vocab k ret c state).
Proof.
  revert ret c state. induction k as [|k IH]; intros ret c state.
  - apply reproducible_ret.
  - cbn [generation_loop].
    apply reproducible_bind; [apply reproducible_dict_getitem|intros x].
    apply reproducible_bind; [|intros [probs state']].
    { apply reproducible_bind; [apply reproducible_log|intros _].
      apply reproducible_ret. }
    apply reproducible_bind; [apply reproducible_list_getitem|intros p].
    apply reproducible_bind; [|intros i].
    { apply reproducible_bind; [apply reproducible_rand|intros r].
      apply reproducible_ret. }
    apply reproducible_bind; [apply reproducible_list_getitem|intros pred].
    apply IH.
Qed.

Lemma reproducible_Model_sample sess chars vocab num prime :
  reproducible (Model_sample sess chars vocab num prime).
Proof.
  unfold Model_sample. cbv zeta.
  apply reproducible_bind; [apply reproducible_prime_loop|intros state].
  apply reproducible_bind; [|intros c; apply reproducible_generation_loop].
  unfold str_getitem_last.
  destruct (str_last prime); [apply reproducible_ret|apply reproducible_raise].
Qed.

Lemma reproducible_sample n prime : reproducible (sample n prime).
Proof.
  unfold sample.
  apply reproducible_bind; [apply reproducible_set_seed|intros _].
  apply reproducible_bind; [apply reproducible_set_seed|intros _].
  apply reproducible_bind; [|intros [[batch_size seq_length] vocab_size]].
  { apply reproducible_bind; [apply reproducible_pickle_load|intros v].
    destruct v as [| | |[|[] [|[] [|[] []]]]];
      first [apply reproducible_ret|apply reproducible_raise]. }
  apply reproducible_bind; [|intros [chars vocab]].
  { apply reproducible_bind; [apply reproducible_pickle_load|intros v].
    destruct v as [| | |[|[] [|[] []]]];
      first [apply reproducible_ret|apply reproducible_raise]. }
  apply reproducible_bind; [|intros model].
  { unfold initialize_sampling_model, Model_init. cbn [negb].
    destruct (graph_builds _ _ _ _ _);
      [apply reproducible_ret|apply reproducible_raise]. }
  apply reproducible_bind; [apply reproducible_initializer|intros sess].
  apply reproducible_bind; [apply reproducible_get_checkpoint|intros ckpt].
  destruct ckpt as [path|]; [|apply reproducible_ret].
  destruct (decide (path = "")); [apply reproducible_ret|].
  apply reproducible_bind; [apply reproducible_restore|intros sess'].
  apply reproducible_bind; [apply reproducible_Model_sample|intros text].
  apply reproducible_bind; [apply reproducible_write_text|intros _].
  apply reproducible_print.
Qed.

(** C5.  Two runs of the sampling cell on the same save directory (the
    same persisted parameters, vocabulary and configuration), with the
    same prime text and count, started with NumPy's generator in the
    same state, give the same result, write the same files (so the same
    [sample.txt]), print the same lines and leave the generator in the
    same state.  The generator that decides the draws is NumPy's global
    one, the one [weighted_pick] reads. *)
Theorem sample_reproducible (n : Z) (prime : string) (w1 w2 : world) :
  np_random w1 = np_random w2 → files w1 = files w2 →
  ∃ out,
    (sample n prime w1).1 = (sample n prime w2).1 ∧
    files (sample n prime w1).2 = files (sample n prime w2).2 ∧
    np_random (sample n prime w1).2 = np_random (sample n prime w2).2 ∧
    stdout (sample n prime w1).2 = stdout w1 ++ out ∧
    stdout (sample n prime w2).2 = stdout w2 ++ out.
Proof.
  intros Hg Hf.
  change (sample n prime w1)
    with (sample n prime (set_tf_random_seed None w1)).
  change (sample n prime w2)
    with (sample n prime (set_tf_random_seed None w2)).
  destruct (reproducible_sample n prime (set_tf_random_seed None w1)
              (set_tf_random_seed None w2))
    as (out & Hr & (Hg' & _ & Hf') & Ho1 & Ho2); [done|].
  by exists out.
Qed.

End Reproducibility.

Section Constructor.
Context `{NumpyRandom} `{Tensorflow} `{Pickle}.

(** C7 (amended).  The constructor checks nothing itself.  It gives the
    graph-construction calls [batch_size] and [seq_length] as passed in
    training mode and 1 and 1 in inference mode, and [vocab_size] as
    passed; it returns the model when those calls accept the
    dimensions and lets their exception through otherwise.  In
    inference mode the [seq_length] and [batch_size] arguments are
    never looked at. *)
Theorem Model_init_checks_nothing (batch_size seq_length vocab_size : Z)
    (training : bool) (w : world) :
  let batch_size' := if training then batch_size else 1%Z in
  let seq_length' := if training then seq_length else 1%Z in
  Model_init batch_size seq_length vocab_size training w =
    (if graph_builds batch_size' seq_length' vocab_size 128 1
     then Return (MkModel batch_size' seq_length' vocab_size 128 1
                          (zero_state batch_size'))
     else Raise FrameworkError, w) ∧
  Model_init batch_size seq_length vocab_size false w
    = Model_init 1 1 vocab_size false w.
Proof.
  split; [|done]. unfold Model_init.
  destruct training; cbn [negb]; by destruct (graph_builds _ _ _ _ _).
Qed.

End Constructor.

(** * Further properties of the sampler *)

Section SamplerEdges.
Context `{NumpyRandom} `{Tensorflow} `{Pickle}.
Variables (sess : Session) (chars : list ascii) (vocab : gmap ascii nat).


(** The loop over [prime[:-1]] stops at the first character that is not a
    key of [vocab], having fed the characters before it. *)
Lemma prime_loop_raise known c later state w :
  (∀ k, k ∈ known → is_Some (vocab !! k)) → vocab !! c = None →
  prime_loop sess vocab (known ++ c :: later) state w =
  (Raise KeyError,
   add_calls (warm_up_calls (sess_params sess) vocab known state) w).
Proof.
  revert state w. induction known as [|k known IH]; intros state w Hin Hc.
  - cbn [app prime_loop warm_up_calls].
    erewrite bind_Raise; [|unfold dict_getitem; rewrite Hc; reflexivity].
    by rewrite add_calls_nil.
  - destruct (Hin k) as [x Hx]; [by left|].
    cbn [app prime_loop warm_up_calls].
    erewrite bind_Return; [|unfold dict_getitem; rewrite Hx; reflexivity].
    erewrite bind_Return; [|reflexivity].
    rewrite IH; [|intros k' Hk'; apply Hin; by right|done].
    rewrite (index_of_lookup _ _ _ Hx). by rewrite add_calls_cons.
Qed.

(** X1.  When a character of [prime[:-1]] is not a key of [vocab],
    [Model.sample] raises KeyError at that character: the characters
    before it have been fed to the model, one state-only call each, and
    nothing else has happened - no draw, no generation step - whatever
    [num] is. *)
Theorem Model_sample_missing_prime_char (num : Z) (prime : string)
    (known : list ascii) (c : ascii) (later : list ascii) (w : world) :
  String.list_ascii_of_string (str_but_last prime) = known ++ c :: later →
  (∀ k, k ∈ known → is_Some (vocab !! k)) → vocab !! c = None →
  let fed := warm_up_calls (sess_params sess) vocab known (zero_state 1) in
  Model_sample sess chars vocab num prime w = (Raise KeyError, add_calls fed w) ∧
  length fed = length known ∧
  np_random (add_calls fed w) = np_random w.
Proof.
  intros Hprime Hknown Hc fed. split; [|split].
  - unfold Model_sample. cbv zeta. rewrite Hprime.
    by erewrite bind_Raise; [|by apply prime_loop_raise].
  - apply warm_up_calls_length.
  - done.
Qed.

(** X2.  With a count that is zero or negative, [range(num)] is empty:
    [Model.sample] warms up on [prime[:-1]] and returns the prime
    unchanged without drawing from the generator.  The last character of
    the prime is never looked up, so it need not be in the vocabulary. *)
Theorem Model_sample_nonpositive_count (num : Z) (prime : string) (w : world) :
  (num ≤ 0)%Z → prime ≠ "" →
  (∀ c, c ∈ String.list_ascii_of_string (str_but_last prime)
        → is_Some (vocab !! c)) →
  let fed := warm_up_calls (sess_params sess) vocab
               (String.list_ascii_of_string (str_but_last prime))
               (zero_state 1) in
  Model_sample sess chars vocab num prime w = (Return prime, add_calls fed w) ∧
  np_random (add_calls fed w) = np_random w.
Proof.
  intros Hnum Hne Hprime fed. split; [|done].
  destruct (str_last_is_Some prime Hne) as [last_char Hlast].
  unfold Model_sample. cbv zeta.
  erewrite bind_Return; [|by apply prime_loop_run].
  erewrite bind_Return;
    [|unfold str_getitem_last; rewrite Hlast; reflexivity].
  replace (Z.to_nat num) with 0 by lia. reflexivity.
Qed.

(** X3.  When the characters of [prime[:-1]] are in the vocabulary but
    the last character of the prime is not, a positive count makes
    [Model.sample] raise KeyError at the first generation step: the
    warm-up has run in full, no distribution has been fetched and the
    generator has not been advanced. *)
Theorem Model_sample_missing_last_char (num : Z) (prime : string)
    (last_char : ascii) (w : world) :
  (0 < num)%Z → str_last prime = Some last_char →
  (∀ c, c ∈ String.list_ascii_of_string (str_but_last prime)
        → is_Some (vocab !! c)) →
  vocab !! last_char = None →
  let fed := warm_up_calls (sess_params sess) vocab
               (String.list_ascii_of_string (str_but_last prime))
               (zero_state 1) in
  Model_sample sess chars vocab num prime w = (Raise KeyError, add_calls fed w) ∧
  Forall (fetches_are Fetch_final_state) fed ∧
  np_random (add_calls fed w) = np_random w.
Proof.
  intros Hnum Hlast Hprime Hc fed. split; [|split; [|done]].
  - unfold Model_sample. cbv zeta.
    erewrite bind_Return; [|by apply prime_loop_run].
    erewrite bind_Return;
      [|unfold str_getitem_last; rewrite Hlast; reflexivity].
    destruct (Z.to_nat num) as [|k] eqn:Hk; [lia|].
    cbn [generation_loop].
    by erewrite bind_Raise; [|unfold dict_getitem; rewrite Hc; reflexivity].
  - apply warm_up_calls_fetches.
Qed.

End SamplerEdges.

Section Footprint.
Context `{NumpyRandom} `{Tensorflow} `{Pickle}.

(** A computation keeps a relation [R] between the process state it starts
    from and the one it leaves, whether it returns or raises. *)
Definition keeps (R : world → world → Prop) {A} (m : Py world A) : Prop :=
  ∀ w, R w (m w).2.

Lemma keeps_ret R `{!Reflexive R} {A} (a : A) : keeps R (mret a).
Proof. intros w. reflexivity. Qed.

Lemma keeps_raise R `{!Reflexive R} {A} e : keeps R (@py_raise world A e).
Proof. intros w. reflexivity. Qed.

Lemma keeps_bind R `{!Transitive R} {A B} (m : Py world A)
    (f : A → Py world B) :
  keeps R m → (∀ a, keeps R (f a)) → keeps R (m ≫= f).
Proof.
  intros Hm Hf w. specialize (Hm w).
  unfold mbind, Py_bind, py_bind.
  destruct (m w) as [[a|e] w']; simpl in *; [|done].
  etrans; [exact Hm|apply Hf].
Qed.

Lemma keeps_weaken (R1 R2 : world → world → Prop) {A} (m : Py world A) :
  (∀ w w', R1 w w' → R2 w w') → keeps R1 m → keeps R2 m.
Proof. intros HR Hm w. apply HR, Hm. Qed.

(** What [Model.sample] may change: the call log grows, the generator
    advances; the files, the console and the graph seed stay. *)
Definition sampler_footprint (w w' : world) : Prop :=
  files w' = files w ∧ stdout w' = stdout w ∧
  tf_random_seed w' = tf_random_seed w ∧
  ∃ calls, sess_calls w' = sess_calls w ++ calls.

Global Instance sampler_footprint_refl : Reflexive sampler_footprint.
Proof. intros w. repeat split. exists []. by rewrite app_nil_r. Qed.

Global Instance sampler_footprint_trans : Transitive sampler_footprint.
Proof.
  intros w1 w2 w3 (Hf1 & Ho1 & Hs1 & c1 & Hc1) (Hf2 & Ho2 & Hs2 & c2 & Hc2).
  split; [congruence|]. split; [congruence|]. split; [congruence|].
  exists (c1 ++ c2). by rewrite Hc2, Hc1, <-app_assoc.
Qed.

Lemma keeps_footprint_log c :
  keeps sampler_footprint (py_modify (log_sess_call c)).
Proof. intros w. repeat split. by exists [c]. Qed.

Lemma keeps_footprint_rand : keeps sampler_footprint np_random_rand.
Proof.
  intros w. unfold np_random_rand.
  destruct (random_sample (np_random w)). repeat split.
  exists []. simpl. by rewrite app_nil_r.
Qed.

Lemma keeps_footprint_dict_getitem (vocab : gmap ascii nat) c :
  keeps sampler_footprint (dict_getitem vocab c).
Proof.
  unfold dict_getitem.
  destruct (vocab !! c); [apply keeps_ret|apply keeps_raise]; apply _.
Qed.

Lemma keeps_footprint_list_getitem {A} (l : list A) i :
  keeps sampler_footprint (list_getitem l i).
Proof.
  unfold list_getitem.
  destruct (l !! i); [apply keeps_ret|apply keeps_raise]; apply _.
Qed.

Lemma keeps_footprint_prime_loop sess vocab cs state :
  keeps sampler_footprint (prime_loop sess vocab cs state).
Proof.
  revert state. induction cs as [|c cs IH]; intros state.
  - apply keeps_ret, _.
  - cbn [prime_loop].
    apply keeps_bind; [apply _|apply keeps_footprint_dict_getitem|intros x].
    apply keeps_bind; [apply _| |intros state'; apply IH].
    apply keeps_bind; [apply _|apply keeps_footprint_log|intros _].
    apply keeps_ret, _.
Qed.

Lemma keeps_footprint_generation_loop sess chars vocab k ret c state :
  keeps sampler_footprint (generation_loop sess chars vocab k ret c state).
Proof.
  revert ret c state. induction k as [|k IH]; intros ret c state.
  - apply keeps_ret, _.
  - cbn [generation_loop].
    apply keeps_bind; [apply _|apply keeps_footprint_dict_getitem|intros x].
    apply keeps_bind; [apply _| |intros [probs state']].
    { apply keeps_bind; [apply _|apply keeps_footprint_log|intros _].
      apply keeps_ret, _. }
    apply keeps_bind; [apply _|apply keeps_footprint_list_getitem|intros p].
    apply keeps_bind; [apply _| |intros i].
    { apply keeps_bind; [apply _|apply keeps_footprint_rand|intros r].
      apply keeps_ret, _. }
    apply keeps_bind; [apply _|apply keeps_footprint_list_getitem|intros pred].
    apply IH.
Qed.

Lemma keeps_footprint_Model_sample sess chars vocab num prime :
  keeps sampler_footprint (Model_sample sess chars vocab num prime).
Proof.
  unfold Model_sample. cbv zeta.
  apply keeps_bind; [apply _|apply keeps_footprint_prime_loop|intros state].
  apply keeps_bind; [apply _| |intros c; apply keeps_footprint_generation_loop].
  unfold str_getitem_last.
  destruct (str_last prime); [apply keeps_ret|apply keeps_raise]; apply _.
Qed.

(** X4.  Whatever its arguments and whether it returns or raises,
    [Model.sample] writes no file, prints nothing and leaves the graph
    seed alone; calls already logged stay, new ones are appended. *)
Theorem Model_sample_footprint (sess : Session) (chars : list ascii)
    (vocab : gmap ascii nat) (num : Z) (prime : string) (w : world) :
  files (Model_sample sess chars vocab num prime w).2 = files w ∧
  stdout (Model_sample sess chars vocab num prime w).2 = stdout w ∧
  tf_random_seed (Model_sample sess chars vocab num prime w).2
    = tf_random_seed w ∧
  ∃ calls,
    sess_calls (Model_sample sess chars vocab num prime w).2
      = sess_calls w ++ calls.
Proof. apply keeps_footprint_Model_sample. Qed.

End Footprint.

Section FedText.
Context `{NumpyRandom} `{Tensorflow} `{Pickle}.
Variables (sess : Session) (chars : list ascii) (vocab : gmap ascii nat).






Hypothesis chars_in_vocab : ∀ c, c ∈ chars → is_Some (vocab !! c).



End FedText.

(** * Further properties of [weighted_pick] *)

Section PickEdges.
Context `{NumpyRandom} `{Tensorflow} `{Pickle}.

(** X6.  Whatever the weights, [weighted_pick] never returns an index
    after the first whose weight is zero: the running sum there compares
    as the one before it, and the search stops between an element below
    the target and one that is not.  A character of probability zero is
    not generated, unless it is the first of the vocabulary. *)
Theorem weighted_pick_skips_zero_weight (weights : list float32) (i : nat)
    (x : float32) (w : world) :
  weights !! S i = Some x → is_zero x = true →
  ∀ sample w', weighted_pick weights w = (Return sample, w') → sample ≠ S i.
Proof.
  intros Hx Hx0 sample w'. rewrite weighted_pick_run.
  intros [= <- _] Heq.
  set (v := float64_mul _ _) in *.
  destruct (np_searchsorted_boundary (np_cumsum weights) v) as [Hbelow Habove].
  rewrite Heq in Hbelow, Habove.
  assert (Hi : i < length (np_cumsum weights)).
  { rewrite np_cumsum_length. apply lookup_lt_Some in Hx. lia. }
  destruct (lookup_lt_is_Some_2 _ _ Hi) as [a Ha].
  pose proof (np_cumsum_step weights i a x Ha Hx) as Hnext.
  assert (Hlt : np_less (float32_to_float64 a) v = true).
  { apply Hbelow; [done|]. by rewrite Nat.sub_1_r, Nat.pred_succ. }
  specialize (Habove _ Hnext).
  destruct x as [s| | |]; try done.
  rewrite float32_add_zero_r in Habove. congruence.
Qed.

(** X7.  With non-negative weights, when the target - the sample times
    the total - is zero, as it is for a sample of exactly 0 and a finite
    total, or for weights that sum to 0, [weighted_pick] returns index
    0, the first character of the vocabulary, whatever its own weight. *)
Theorem weighted_pick_zero_target (weights : list float32) (w : world) :
  Forall (λ x, float_nonneg x = true) weights →
  is_zero (float64_mul (random_sample (np_random w)).1
                       (float32_to_float64 (np_sum weights))) = true →
  weighted_pick weights w
  = (Return 0, set_np_random (random_sample (np_random w)).2 w).
Proof.
  intros Hnonneg Hzero. rewrite weighted_pick_run. f_equal. f_equal.
  apply binsearch_left_stays. intros j t Ht.
  rewrite list_lookup_fmap in Ht.
  destruct (np_cumsum weights !! j) as [y|] eqn:Hy; [|done].
  injection Ht as <-.
  apply np_less_not_negative_zero; [|done].
  apply float32_to_float64_not_negative.
  by eapply np_cumsum_not_negative.
Qed.

End PickEdges.

(** * Further properties of the training cells *)

Section TrainerEdges.
Context `{NumpyRandom} `{Tensorflow} `{Pickle}.

Lemma epochs_calls_no_batches model epochs sess :
  concat (epochs_calls model [] epochs sess) = [].
Proof.
  apply nil_length_inv. rewrite epochs_calls_total. simpl. lia.
Qed.

Lemma epochs_lines_no_batches model num_epochs epochs sess :
  epochs_lines model [] num_epochs epochs sess = [].
Proof.
  revert sess. induction epochs as [|e epochs IH]; intros sess; [done|].
  simpl. apply IH.
Qed.

(** X8.  The checkpoint's step number is computed from the loop variables
    [e] and [b] after the loops.  When there is no epoch or the loader
    has no batch, one of them was never bound: the training cell raises
    NameError at [saver.save], having trained nothing, printed nothing
    and written no checkpoint. *)
Theorem train_unbound_loop_variable (model : Model) (data_loader : TextLoader)
    (num_epochs : nat) (w : world) :
  num_epochs = 0 ∨ num_batches data_loader = 0 →
  train model data_loader num_epochs w = (Raise NameError, w).
Proof.
  intros Hzero. unfold train. cbv zeta.
  erewrite bind_Return; [|reflexivity].
  destruct (epoch_loop_run model num_epochs (seq 0 num_epochs)
              (TrainVars data_loader (training_session w) [] None None) w)
    as (data_loader' & Hb & Hrun).
  erewrite bind_Return; [|exact Hrun]. clear Hrun.
  cbn [tv_loader tv_sess tv_losses tv_e tv_b] in *.
  destruct (decide (num_epochs = 0)) as [->|HE].
  - simpl. by rewrite add_calls_lines_nil.
  - destruct Hzero as [?|Hn]; [done|].
    apply nil_length_inv in Hn. rewrite Hn.
    rewrite epochs_calls_no_batches, epochs_lines_no_batches,
      add_calls_lines_nil.
    rewrite (last_seq_0 num_epochs) by lia.
    erewrite bind_Return; [|reflexivity].
    reflexivity.
Qed.

(** The report of a progress line: step, total, epoch and loss. *)
Definition progress_line (num_epochs n : nat) (k : nat) (train_loss : Loss)
    : line :=
  Line_progress (Z.of_nat k) (Z.of_nat (num_epochs * n)) (Z.of_nat (k / n))
                train_loss.

Lemma epoch_lines_zip num_epochs e n b0 sess state xs :
  b0 + length xs ≤ n →
  epoch_lines num_epochs e n (seq b0 (length xs)) (epoch_calls sess state xs)
  = zip_with (progress_line num_epochs n) (seq (e * n + b0) (length xs))
      (omap call_loss (epoch_calls sess state xs)).
Proof.
  revert b0 sess state.
  induction xs as [|xy xs IH]; intros b0 sess state Hle; [done|].
  simpl in Hle.
  cbn [length seq epoch_calls epoch_lines omap list_omap call_loss zip_with].
  rewrite IH by lia. f_equal.
  - unfold progress_line. f_equal; [lia|lia|].
    f_equal. rewrite Nat.div_add_l by lia. rewrite Nat.div_small by lia. lia.
  - f_equal. f_equal. lia.
Qed.

Lemma epochs_lines_zip model batches num_epochs s k sess :
  epochs_lines model batches num_epochs (seq s k) sess
  = zip_with (progress_line num_epochs (length batches))
      (seq (s * length batches) (k * length batches))
      (omap call_loss (concat (epochs_calls model batches (seq s k) sess))).
Proof.
  revert s sess. induction k as [|k IH]; intros s sess; [done|].
  cbn [seq epochs_lines epochs_calls concat].
  rewrite omap_app, IH.
  rewrite (epoch_lines_zip num_epochs s (length batches) 0) by lia.
  replace (S k * length batches) with (length batches + k * length batches)
    by lia.
  rewrite seq_app, zip_with_app
    by (by rewrite length_seq, epoch_losses_length).
  rewrite Nat.add_0_r. do 3 f_equal. lia.
Qed.

(** X9.  In a run of the training cell the k-th line printed (counting
    from 0) reports step k out of num_epochs * num_batches, the epoch
    k div num_batches and the k-th loss of [losses]; one line is printed
    per batch, and after them the line saying the model was saved.  The
    step shown never reaches the total. *)
Theorem train_progress_lines (model : Model) (data_loader : TextLoader)
    (num_epochs : nat) (w : world) :
  0 < num_epochs → 0 < num_batches data_loader →
  ∃ losses sess' w',
    train model data_loader num_epochs w = (Return (losses, sess'), w') ∧
    length losses = num_epochs * num_batches data_loader ∧
    stdout w' =
      stdout w
      ++ zip_with (progress_line num_epochs (num_batches data_loader))
           (seq 0 (num_epochs * num_batches data_loader)) losses
      ++ [Line_text "model saved to save/model.ckpt"].
Proof.
  intros HE Hn. eexists _, _, _. split; [by apply train_run|].
  split; [by rewrite epochs_losses_total, length_seq|].
  cbn [stdout]. by rewrite epochs_lines_zip.
Qed.

(** X10.  The checkpoint a training run writes is numbered
    num_epochs * num_batches - 1, the step of the last batch: the data
    file of [save/model.ckpt-N] holds the variables left by the last
    update, its index file is there, and the directory's [checkpoint]
    file names that prefix. *)
Theorem train_checkpoint_step (model : Model) (data_loader : TextLoader)
    (num_epochs : nat) (w : world) :
  0 < num_epochs → 0 < num_batches data_loader →
  ∃ losses sess' w',
    train model data_loader num_epochs w = (Return (losses, sess'), w') ∧
    let prefix :=
      "save/model.ckpt-"
      +:+ pretty (Z.of_nat (num_epochs * num_batches data_loader) - 1)%Z in
    files w' !! "save/checkpoint" = Some (CheckpointIndex prefix) ∧
    files w' !! (prefix +:+ ".index") = Some TensorIndex ∧
    files w' !! (prefix +:+ ".data-00000-of-00001")
      = Some (CheckpointData (sess_params sess')).
Proof.
  intros HE Hn. eexists _, _, _. split; [by apply train_run|].
  cbv zeta. cbn [files].
  replace (Z.of_nat (num_epochs * num_batches data_loader) - 1)%Z
    with (Z.of_nat (num_epochs - 1) * Z.of_nat (length (loader_batches data_loader))
          + Z.of_nat (length (loader_batches data_loader) - 1))%Z
    by (unfold num_batches in *; nia).
  split; [apply with_checkpoint_state|].
  split; [apply with_checkpoint_index|apply with_checkpoint_data].
Qed.

(** X11.  A training run touches four files only, the three files of
    the checkpoint it writes - index, data and graph - and the
    directory's [checkpoint] file: every other file of the process - the
    pickled configuration and vocabulary among them - is as it was.  It
    draws nothing from NumPy's generator and leaves the graph seed. *)
Theorem train_writes_only_checkpoint (model : Model) (data_loader : TextLoader)
    (num_epochs : nat) (w : world) :
  0 < num_epochs → 0 < num_batches data_loader →
  ∃ losses sess' w',
    train model data_loader num_epochs w = (Return (losses, sess'), w') ∧
    np_random w' = np_random w ∧ tf_random_seed w' = tf_random_seed w ∧
    let prefix :=
      "save/model.ckpt-"
      +:+ pretty (Z.of_nat (num_epochs * num_batches data_loader) - 1)%Z in
    ∀ path,
      path ≠ "save/checkpoint" →
      path ≠ prefix +:+ ".index" →
      path ≠ prefix +:+ ".data-00000-of-00001" →
      path ≠ prefix +:+ ".meta" →
      files w' !! path = files w !! path.
Proof.
  intros HE Hn. eexists _, _, _. split; [by apply train_run|].
  split; [done|]. split; [done|]. intros prefix path Hstate Hidx Hdata Hmeta.
  cbn [files]. subst prefix.
  replace (Z.of_nat (num_epochs * num_batches data_loader) - 1)%Z
    with (Z.of_nat (num_epochs - 1) * Z.of_nat (length (loader_batches data_loader))
          + Z.of_nat (length (loader_batches data_loader) - 1))%Z
    in Hidx, Hdata, Hmeta
    by (unfold num_batches in *; nia).
  unfold with_checkpoint.
  rewrite lookup_insert_ne by (intros Heq; apply Hstate; by rewrite <-Heq).
  rewrite lookup_insert_ne by (intros Heq; apply Hmeta; by rewrite <-Heq).
  rewrite lookup_insert_ne by (intros Heq; apply Hdata; by rewrite <-Heq).
  rewrite lookup_insert_ne by (intros Heq; apply Hidx; by rewrite <-Heq).
  done.
Qed.

(** X12.  In the configuration cell the model is constructed before
    anything is pickled: when construction raises, the exception leaves
    the cell with no file written, so no configuration is left behind
    for a model that does not exist. *)
Theorem save_config_fails_before_writing (data_loader : TextLoader)
    (batch_size seq_length : Z) (w : world) :
  graph_builds batch_size seq_length (loader_vocab_size data_loader) 128 1
    = false →
  ∃ w', save_config data_loader batch_size seq_length w
          = (Raise FrameworkError, w') ∧
        files w' = files w ∧ stdout w' = stdout w.
Proof.
  intros Hg. eexists. split.
  - unfold save_config. cbv zeta.
    erewrite bind_Return; [|reflexivity].
    erewrite bind_Return; [|reflexivity].
    erewrite bind_Raise;
      [|unfold initialize_training_model, Model_init; cbn [negb];
        rewrite Hg; reflexivity].
    reflexivity.
  - split; reflexivity.
Qed.

End TrainerEdges.

(** * Further properties of the sampling cell *)

Section SamplingEdges.
Context `{NumpyRandom} `{Tensorflow} `{Pickle}.

(** X13.  [sample] opens the two pickles before it looks for a
    checkpoint: when [config.pkl] is missing, or [config.pkl] loads and
    [chars_vocab.pkl] is missing, it raises IOError - also when a
    checkpoint is there - having built no model, written nothing and
    printed nothing; only the graph seed has been set. *)
Theorem sample_missing_pickle (n : Z) (prime : string) (w : world) :
  (files w !! "save/config.pkl" = None →
   sample n prime w = (Raise IOError, set_tf_random_seed (Some 100%Z) w)) ∧
  (∀ data batch_size seq_length vocab_size,
     files w !! "save/config.pkl" = Some (Pickled data) →
     pickle_loads data
       = Some (Py_tuple [Py_int batch_size; Py_int seq_length;
                         Py_int vocab_size]) →
     files w !! "save/chars_vocab.pkl" = None →
     sample n prime w = (Raise IOError, set_tf_random_seed (Some 100%Z) w)).
Proof.
  split.
  - intros Hnone. unfold sample.
    erewrite bind_Return; [|reflexivity].
    erewrite bind_Return; [|reflexivity].
    erewrite bind_Raise; [reflexivity|].
    unfold load_config.
    erewrite bind_Raise; [reflexivity|].
    unfold pickle_load_from, mbind, Py_bind, py_bind, py_get.
    change (files (set_tf_random_seed _ (set_tf_random_seed _ w)))
      with (files w).
    change (path_join save_dir "config.pkl") with "save/config.pkl".
    by rewrite Hnone.
  - intros data batch_size seq_length vocab_size Hf Hv Hnone. unfold sample.
    erewrite bind_Return; [|reflexivity].
    erewrite bind_Return; [|reflexivity].
    erewrite bind_Return; [|by eapply load_config_run]. cbv beta iota.
    erewrite bind_Raise; [reflexivity|].
    unfold load_chars_vocab.
    erewrite bind_Raise; [reflexivity|].
    unfold pickle_load_from, mbind, Py_bind, py_bind, py_get.
    change (files (set_tf_random_seed _ (set_tf_random_seed _ w)))
      with (files w).
    change (path_join save_dir "chars_vocab.pkl") with "save/chars_vocab.pkl".
    by rewrite Hnone.
Qed.

(** What the body of [sample] may change once the seed is set: the graph
    seed stays, and no file but [sample.txt] is written. *)
Definition sample_footprint (w w' : world) : Prop :=
  tf_random_seed w' = tf_random_seed w ∧
  ∀ path, path ≠ "save/sample.txt" → files w' !! path = files w !! path.

Global Instance sample_footprint_refl : Reflexive sample_footprint.
Proof. by intros w. Qed.

Global Instance sample_footprint_trans : Transitive sample_footprint.
Proof.
  intros w1 w2 w3 [Hs1 Hf1] [Hs2 Hf2]. split; [congruence|].
  intros path Hp. by rewrite Hf2, Hf1.
Qed.

Lemma keeps_readonly R `{!Reflexive R} {A} (m : Py world A) :
  (∀ w, (m w).2 = w) → keeps R m.
Proof. intros Hm w. by rewrite Hm. Qed.

Lemma pickle_load_from_readonly path w : (pickle_load_from path w).2 = w.
Proof.
  unfold pickle_load_from, mbind, Py_bind, py_bind, py_get.
  destruct (files w !! path) as [[data| | | | |]|]; try done.
  by destruct (pickle_loads data).
Qed.

Lemma keeps_sample_body n prime :
  keeps sample_footprint
    ('(batch_size, seq_length, vocab_size) ← load_config;
     '(chars, vocab) ← load_chars_vocab;
     model ← initialize_sampling_model batch_size seq_length vocab_size;
     sess ← global_variables_initializer;
     ckpt ← get_checkpoint_state save_dir;
     match ckpt with
     | Some model_checkpoint_path =>
         if decide (model_checkpoint_path = "") then mret tt
         else
           sess ← saver_restore sess model_checkpoint_path;
           sample_test ← generate_sample_test model sess chars vocab n prime;
           _ ← write_text (path_join save_dir "sample.txt") sample_test;
           print (Line_text sample_test)
     | None => mret tt
     end).
Proof.
  apply keeps_bind; [apply _| |intros [[batch_size seq_length] vocab_size]].
  { apply keeps_bind; [apply _| |intros v].
    - apply keeps_readonly; [apply _|apply pickle_load_from_readonly].
    - destruct v as [| | |[|[] [|[] [|[] []]]]];
        first [apply keeps_ret|apply keeps_raise]; apply _. }
  apply keeps_bind; [apply _| |intros [chars vocab]].
  { apply keeps_bind; [apply _| |intros v].
    - apply keeps_readonly; [apply _|apply pickle_load_from_readonly].
    - destruct v as [| | |[|[] [|[] []]]];
        first [apply keeps_ret|apply keeps_raise]; apply _. }
  apply keeps_bind; [apply _| |intros model].
  { unfold initialize_sampling_model, Model_init. cbn [negb].
    destruct (graph_builds _ _ _ _ _);
      [apply keeps_ret|apply keeps_raise]; apply _. }
  apply keeps_bind; [apply _| |intros sess].
  { apply keeps_readonly; [apply _|done]. }
  apply keeps_bind; [apply _| |intros ckpt].
  { apply keeps_readonly; [apply _|].
    intros w. by rewrite get_checkpoint_state_run. }
  destruct ckpt as [path|]; [|apply keeps_ret, _].
  destruct (decide (path = "")); [apply keeps_ret, _|].
  apply keeps_bind; [apply _| |intros sess'].
  { apply keeps_readonly; [apply _|]. intros w.
    unfold saver_restore, mbind, Py_bind, py_bind, py_get.
    destruct (files w !! (path +:+ ".index")) as [[]|]; try done.
    by destruct (files w !! (path +:+ ".data-00000-of-00001")) as [[]|]. }
  apply keeps_bind; [apply _| |intros text].
  { eapply keeps_weaken; [|apply keeps_footprint_Model_sample].
    intros w w' (Hf & _ & Hs & _). split; [done|]. intros p _. by rewrite Hf. }
  apply keeps_bind; [apply _| |intros _].
  - intros w. split; [done|]. intros p Hp. cbn.
    by rewrite lookup_insert_ne.
  - intros w. by split.
Qed.

(** X14.  However [sample] ends - normally, silently without a
    checkpoint, or with an exception - the graph seed is 100 afterwards
    and no file other than [save/sample.txt] has been created, changed or
    removed: the pickles and the checkpoint are never written by
    sampling. *)
Theorem sample_writes_only_sample_txt (n : Z) (prime : string) (w : world) :
  tf_random_seed (sample n prime w).2 = Some 100%Z ∧
  ∀ path, path ≠ "save/sample.txt" →
          files (sample n prime w).2 !! path = files w !! path.
Proof.
  pose proof (keeps_sample_body n prime (set_tf_random_seed (Some 100%Z) w))
    as [Hseed Hfiles].
  split; [exact Hseed|exact Hfiles].
Qed.

End SamplingEdges.

(** * The three cells in sequence *)

Section Pipeline.
Context `{NumpyRandom} `{Tensorflow} `{Pickle}.


End Pipeline.

(** * What a normal return of the sampler guarantees *)

Section SamplerReturns.
Context `{NumpyRandom} `{Tensorflow} `{Pickle}.

Lemma bind_Return_inv {A B} (m : Py world A) (f : A → Py world B) w b w' :
  (m ≫= f) w = (Return b, w') →
  ∃ a w1, m w = (Return a, w1) ∧ f a w1 = (Return b, w').
Proof.
  unfold mbind, Py_bind, py_bind.
  destruct (m w) as [[a|e] w1]; [|done]. intros Hf. by exists a, w1.
Qed.

Lemma getitem_Return_inv {A} (l : list A) i a (w w' : world) :
  list_getitem l i w = (Return a, w') → w' = w.
Proof. unfold list_getitem. destruct (l !! i); by intros [= _ <-]. Qed.

Lemma dict_getitem_Return_inv (vocab : gmap ascii nat) c x (w w' : world) :
  dict_getitem vocab c w = (Return x, w') → w' = w.
Proof. unfold dict_getitem. destruct (vocab !! c); by intros [= _ <-]. Qed.

Lemma prime_loop_Return_inv sess vocab cs state state' w w' :
  prime_loop sess vocab cs state w = (Return state', w') →
  np_random w' = np_random w.
Proof.
  revert state w. induction cs as [|c cs IH]; intros state w.
  - by intros [= _ <-].
  - cbn [prime_loop]. intros Hrun.
    apply bind_Return_inv in Hrun as (x & w1 & Hx & Hrun).
    apply dict_getitem_Return_inv in Hx as ->.
    apply bind_Return_inv in Hrun as (s1 & w2 & Hs & Hrun).
    injection Hs as <- <-. by apply IH in Hrun.
Qed.

Lemma generation_loop_Return_inv sess chars vocab k ret c state text w w' :
  generation_loop sess chars vocab k ret c state w = (Return text, w') →
  ∃ generated, text = ret +:+ generated ∧ String.length generated = k ∧
               np_random w' = draws k (np_random w).
Proof.
  revert ret c state w. induction k as [|k IH]; intros ret c state w.
  - intros [= <- <-]. exists "". by rewrite string_app_nil_r.
  - cbn [generation_loop]. intros Hrun.
    apply bind_Return_inv in Hrun as (x & w1 & Hx & Hrun).
    apply dict_getitem_Return_inv in Hx as ->.
    apply bind_Return_inv in Hrun as ([probs state'] & w2 & Hs & Hrun).
    injection Hs as <- <- <-.
    apply bind_Return_inv in Hrun as (p & w3 & Hp & Hrun).
    apply getitem_Return_inv in Hp as ->.
    apply bind_Return_inv in Hrun as (i & w4 & Hi & Hrun).
    rewrite weighted_pick_run in Hi. injection Hi as <- <-.
    apply bind_Return_inv in Hrun as (pred & w5 & Hpred & Hrun).
    apply getitem_Return_inv in Hpred as ->.
    apply IH in Hrun as (generated & -> & Hlen & Hdraws).
    exists (String pred generated). split; [|split].
    + by rewrite string_app_assoc.
    + simpl. by rewrite Hlen.
    + exact Hdraws.
Qed.

(** X16.  Whatever the session, the character table and the vocabulary
    are, when [Model.sample] returns at all it returns the prime followed
    by exactly [num] characters (none for a negative [num]), the prime
    was not empty, and the generator has been drawn from once per
    generated character. *)
Theorem Model_sample_returns_prime_and_count (sess : Session)
    (chars : list ascii) (vocab : gmap ascii nat) (num : Z) (prime : string)
    (text : string) (w w' : world) :
  Model_sample sess chars vocab num prime w = (Return text, w') →
  prime ≠ "" ∧
  ∃ generated,
    text = prime +:+ generated ∧
    String.length generated = Z.to_nat num ∧
    np_random w' = draws (Z.to_nat num) (np_random w).
Proof.
  unfold Model_sample. cbv zeta. intros Hrun.
  apply bind_Return_inv in Hrun as (state & w1 & Hwarm & Hrun).
  apply prime_loop_Return_inv in Hwarm.
  apply bind_Return_inv in Hrun as (c & w2 & Hc & Hrun).
  unfold str_getitem_last in Hc.
  destruct (str_last prime) eqn:Hlast; [|done]. injection Hc as <- <-.
  split; [by intros ->|].
  apply generation_loop_Return_inv in Hrun as (generated & -> & Hlen & Hdraws).
  exists generated. by rewrite Hdraws, Hwarm.
Qed.

(** X17.  A [checkpoint] file that names no checkpoint is an error of
    its own: with the two pickles in place and a model that builds,
    [tf.train.get_checkpoint_state] raises ValueError, nothing in
    [sample] catches it, and it reaches the caller before anything is
    restored, generated, written or printed.  The second half of the
    cell's test, [ckpt.model_checkpoint_path], is never false. *)
Theorem sample_empty_checkpoint_path (n : Z) (prime : string) (w : world)
    d1 d2 batch_size seq_length vocab_size chars vocab :
  files w !! path_join save_dir "config.pkl" = Some (Pickled d1) →
  pickle_loads d1
    = Some (Py_tuple [Py_int batch_size; Py_int seq_length;
                      Py_int vocab_size]) →
  files w !! path_join save_dir "chars_vocab.pkl" = Some (Pickled d2) →
  pickle_loads d2 = Some (Py_tuple [Py_chars chars; Py_dict vocab]) →
  graph_builds 1 1 vocab_size 128 1 = true →
  files w !! path_join save_dir "checkpoint" = Some (CheckpointIndex "") →
  sample n prime w = (Raise ValueError, set_tf_random_seed (Some 100%Z) w) ∧
  ∀ w0 path w', get_checkpoint_state save_dir w0 = (Return (Some path), w')
                → path ≠ "".
Proof.
  intros Hf1 Hv1 Hf2 Hv2 Hg Hidx. split.
  - erewrite sample_run by done. by rewrite Hidx.
  - intros w0 path w'. rewrite get_checkpoint_state_run.
    destruct (files w0 !! path_join save_dir "checkpoint")
      as [[|latest| | | |]|]; try done.
    destruct (decide (latest = "")); [done|]. by intros [= <- _].
Qed.

End SamplerReturns.

(** * The properties on the small instance *)

Import Tiny.



Lemma tiny_chars_in_vocab c : c ∈ chars → is_Some (vocab !! c).
Proof.
  unfold chars. rewrite !elem_of_cons, elem_of_nil.
  intros [->|[->|[]]]; by eexists.
Qed.

Lemma tiny_pickle_roundtrip : pickle_roundtrip.
Proof. by intros v. Qed.

(** The graph seed of TensorFlow is not the seed of NumPy: two fresh
    processes on the same trained save directory, both of which call
    [tf.set_random_seed(100)] inside [sample], write different texts when
    NumPy's generator starts in different states. *)
Example sample_depends_on_numpy_state :
  files (sample 3 "ab" (restarted 1)).2 !! "save/sample.txt"
    = Some (Text "abaab") ∧
  files (sample 3 "ab" (restarted 3)).2 !! "save/sample.txt"
    = Some (Text "abbaa").
Proof. split; vm_compute; reflexivity. Qed.



Section RoundingRuns.
Local Existing Instance Rounding.numpy | 0.
Local Existing Instance Rounding.tensorflow | 0.

(** C9 fails on the code, on weights that are non-negative with a
    positive total and a sample in [0, 1).  [np.cumsum] adds left to
    right and [np.sum] pairwise, each addition rounded to float32, so
    the total can exceed the last running sum; the sample [1 - 2^-30]
    then gives a target above every running sum and [weighted_pick]
    returns the length of the weights.
    On eight weights 0.3: last running sum 10066329 * 2^-22
    (2.39999986), total 10066330 * 2^-22 (2.40000010), index 8.
    On the uniform distribution over twelve characters: last running sum
    [1 - 2^-23], total [1 - 2^-24], index 12; [Model.sample], asked for
    one character after the prime "a", fetches that distribution and
    raises IndexError at [chars[sample]]. *)
Theorem weighted_pick_past_the_end :
  unit_interval (@random_sample Rounding.numpy tt).1 = true ∧
  (Forall (λ x, float_nonneg x = true) Rounding.weights ∧
   SFltb (S754_zero false) (np_sum Rounding.weights) = true ∧
   last (np_cumsum Rounding.weights)
     = Some (S754_finite false 10066329 (-22)) ∧
   np_sum Rounding.weights = S754_finite false 10066330 (-22) ∧
   weighted_pick Rounding.weights Rounding.world0
     = (Return (length Rounding.weights), Rounding.world0)) ∧
  (Forall (λ x, float_nonneg x = true) Rounding.uniform ∧
   SFltb (S754_zero false) (np_sum Rounding.uniform) = true ∧
   last (np_cumsum Rounding.uniform)
     = Some (S754_finite false (2 ^ 24 - 2) (-24)) ∧
   np_sum Rounding.uniform = S754_finite false (2 ^ 24 - 1) (-24) ∧
   length Rounding.chars = length Rounding.uniform ∧
   weighted_pick Rounding.uniform Rounding.world0
     = (Return (length Rounding.uniform), Rounding.world0) ∧
   Model_sample Rounding.sess Rounding.chars Rounding.vocab 1 "a"
     Rounding.world0
     = (Raise IndexError,
        log_sess_call (SessCall Fetch_probs_final_state 0 0)
          Rounding.world0)).
Proof.
  split; [by vm_compute|]. split.
  - split; [by repeat constructor|]. repeat split; by vm_compute.
  - split; [by repeat constructor|]. repeat split; by vm_compute.
Qed.

End RoundingRuns.



(** C7, as stated, fails: in inference mode a [seq_length] of 0 is
    replaced by 1 before anything reads it, and construction succeeds. *)
Lemma Model_init_accepts_seq_length_0 :
  (0 <= 0)%Z ∧
  Model_init 32 0 2 false (world0 0)
    = (Return (MkModel 1 1 2 128 1 0), world0 0).
Proof. split; [done|reflexivity]. Qed.

(** C8, as stated, fails: with the configuration saved but no checkpoint
    in the save directory, [sample] returns normally; no error reaches
    the caller, nothing is written and nothing is printed. *)
Lemma sample_no_checkpoint_no_error :
  files configured !! "save/checkpoint" = None ∧
  (sample 3 "ab" configured).1 = Return tt ∧
  files (sample 3 "ab" configured).2 = files configured ∧
  stdout (sample 3 "ab" configured).2 = [].
Proof. repeat split; vm_compute; reflexivity. Qed.

(** C4 on the small instance. *)
Lemma checkpoint_roundtrip_witness :
  graph_builds 32 50 (loader_vocab_size data_loader) 128 1 = true ∧
  0 < 2 ∧ 0 < num_batches data_loader ∧
  ∃ model w1 losses trained w2 path,
    save_config data_loader 32 50 (world0 0) = (Return model, w1) ∧
    train model data_loader 2 w1 = (Return (losses, trained), w2) ∧
    load_config w2 = (Return (32%Z, 50%Z, loader_vocab_size data_loader), w2) ∧
    load_chars_vocab w2
      = (Return (loader_chars data_loader, loader_vocab data_loader), w2) ∧
    get_checkpoint_state save_dir w2 = (Return (Some path), w2) ∧
    path ≠ "" ∧
    ∀ sess, ∃ restored,
      saver_restore sess path w2 = (Return restored, w2) ∧
      sess_params restored = sess_params trained ∧
      ∀ x state,
        eval_probs (sess_params restored) x state
          = eval_probs (sess_params trained) x state ∧
        eval_final_state (sess_params restored) x state
          = eval_final_state (sess_params trained) x state.
Proof.
  split; [reflexivity|]. split; [lia|]. split; [vm_compute; lia|].
  apply (checkpoint_roundtrip data_loader 32 50 2 (world0 0)
           tiny_pickle_roundtrip).
  - reflexivity.
  - lia.
  - vm_compute. lia.
Defined.

(** C5 on the small instance: a fresh process and a busy one, on the same
    save directory and with the same generator state. *)
Lemma sample_reproducible_witness :
  np_random (restarted 1) = np_random (busy 1) ∧
  files (restarted 1) = files (busy 1) ∧
  ∃ out,
    (sample 3 "ab" (restarted 1)).1 = (sample 3 "ab" (busy 1)).1 ∧
    files (sample 3 "ab" (restarted 1)).2
      = files (sample 3 "ab" (busy 1)).2 ∧
    np_random (sample 3 "ab" (restarted 1)).2
      = np_random (sample 3 "ab" (busy 1)).2 ∧
    stdout (sample 3 "ab" (restarted 1)).2 = stdout (restarted 1) ++ out ∧
    stdout (sample 3 "ab" (busy 1)).2 = stdout (busy 1) ++ out.
Proof.
  split; [reflexivity|]. split; [reflexivity|].
  apply (sample_reproducible 3 "ab" (restarted 1) (busy 1)); reflexivity.
Defined.

(** C8 (amended) on the small instance: before training there is no
    checkpoint, after training there is one. *)
Lemma sample_without_checkpoint_is_silent_witness :
  files configured !! path_join save_dir "checkpoint" = None ∧
  sample 3 "ab" configured
    = (Return tt, set_tf_random_seed (Some 100%Z) configured) ∧
  files trained !! path_join save_dir "checkpoint"
    = Some (CheckpointIndex "save/model.ckpt-3") ∧
  files trained !! "save/model.ckpt-3.index" = Some TensorIndex ∧
  files trained !! "save/model.ckpt-3.data-00000-of-00001"
    = Some (CheckpointData 4) ∧
  sample 3 "ab" trained =
    match Model_sample (MkSession 4 initial_moments Model_lr_initial)
                       chars vocab 3 "ab"
                       (set_tf_random_seed (Some 100%Z) trained) with
    | (Return sample_test, w2) =>
        (Return tt,
         print_line (Line_text sample_test)
           (set_files (<[path_join save_dir "sample.txt" := Text sample_test]>
                         (files w2)) w2))
    | (Raise e, w2) => (Raise e, w2)
    end.
Proof.
  assert (Hnone : files configured !! path_join save_dir "checkpoint" = None)
    by reflexivity.
  assert (Hidx : files trained !! path_join save_dir "checkpoint"
                 = Some (CheckpointIndex "save/model.ckpt-3")) by reflexivity.
  assert (Htensors : files trained !! "save/model.ckpt-3.index"
                     = Some TensorIndex) by reflexivity.
  assert (Hdata : files trained !! "save/model.ckpt-3.data-00000-of-00001"
                  = Some (CheckpointData 4)) by reflexivity.
  destruct (sample_without_checkpoint_is_silent 3 "ab" configured
              (Py_tuple [Py_int 32; Py_int 50; Py_int 2])
              (Py_tuple [Py_chars chars; Py_dict vocab]) 32 50 2 chars vocab
              eq_refl eq_refl eq_refl eq_refl eq_refl) as [Hsilent _].
  destruct (sample_without_checkpoint_is_silent 3 "ab" trained
              (Py_tuple [Py_int 32; Py_int 50; Py_int 2])
              (Py_tuple [Py_chars chars; Py_dict vocab]) 32 50 2 chars vocab
              eq_refl eq_refl eq_refl eq_refl eq_refl) as [_ Hrestored].
  split; [exact Hnone|]. split; [exact (proj1 (Hsilent Hnone))|].
  split; [exact Hidx|]. split; [exact Htensors|]. split; [exact Hdata|].
  apply (Hrestored "save/model.ckpt-3" 4 Hidx ltac:(done) Htensors Hdata).
Defined.

(** ** The further properties on the small instance *)

(** X1 on the small instance: prime "azb", where "z" is unknown. *)
Lemma Model_sample_missing_prime_char_witness :
  String.list_ascii_of_string (str_but_last "azb") = ["a"%char] ++ "z"%char :: [] ∧
  vocab !! "z"%char = None ∧
  Model_sample sess chars vocab 3 "azb" (world0 1)
    = (Raise KeyError,
       add_calls (warm_up_calls (sess_params sess) vocab ["a"%char]
                    (zero_state 1)) (world0 1)).
Proof.
  split; [reflexivity|]. split; [reflexivity|].
  apply (Model_sample_missing_prime_char sess chars vocab 3 "azb"
           ["a"%char] "z"%char [] (world0 1)).
  - reflexivity.
  - intros k Hk. apply tiny_chars_in_vocab. unfold chars.
    apply elem_of_cons in Hk as [->|Hk]; [by left|by apply elem_of_nil in Hk].
  - reflexivity.
Defined.

(** X2 on the small instance: count -2, prime "az" ending in an unknown
    character. *)
Lemma Model_sample_nonpositive_count_witness :
  (-2 ≤ 0)%Z ∧ "az" ≠ "" ∧ vocab !! "z"%char = None ∧
  Model_sample sess chars vocab (-2) "az" (world0 1)
    = (Return "az",
       add_calls (warm_up_calls (sess_params sess) vocab
                    (String.list_ascii_of_string (str_but_last "az"))
                    (zero_state 1)) (world0 1)).
Proof.
  split; [lia|]. split; [done|]. split; [reflexivity|].
  apply (Model_sample_nonpositive_count sess chars vocab (-2) "az" (world0 1)).
  - lia.
  - done.
  - intros c Hc. apply tiny_chars_in_vocab. unfold chars.
    apply elem_of_cons in Hc as [->|Hc]; [by left|by apply elem_of_nil in Hc].
Defined.

(** X3 on the small instance: prime "az", count 3. *)
Lemma Model_sample_missing_last_char_witness :
  (0 < 3)%Z ∧ str_last "az" = Some "z"%char ∧ vocab !! "z"%char = None ∧
  Model_sample sess chars vocab 3 "az" (world0 1)
    = (Raise KeyError,
       add_calls (warm_up_calls (sess_params sess) vocab
                    (String.list_ascii_of_string (str_but_last "az"))
                    (zero_state 1)) (world0 1)).
Proof.
  split; [lia|]. split; [reflexivity|]. split; [reflexivity|].
  apply (Model_sample_missing_last_char sess chars vocab 3 "az" "z"%char
           (world0 1)).
  - lia.
  - reflexivity.
  - intros c Hc. apply tiny_chars_in_vocab. unfold chars.
    apply elem_of_cons in Hc as [->|Hc]; [by left|by apply elem_of_nil in Hc].
  - reflexivity.
Defined.


(** X6 on the small instance: the middle weight is zero. *)
Lemma weighted_pick_skips_zero_weight_witness :
  [half; S754_zero false; half] !! 1 = Some (S754_zero false) ∧
  is_zero (S754_zero false) = true ∧
  ∀ sample w',
    weighted_pick [half; S754_zero false; half] (world0 2)
      = (Return sample, w') →
    sample ≠ 1.
Proof.
  split; [reflexivity|]. split; [reflexivity|].
  apply (weighted_pick_skips_zero_weight [half; S754_zero false; half] 0
           (S754_zero false) (world0 2)); reflexivity.
Defined.

(** X7 on the small instance: the generator's first draw is 0 and the
    first weight is 0. *)
Lemma weighted_pick_zero_target_witness :
  Forall (λ x, float_nonneg x = true) [S754_zero false; half] ∧
  (random_sample (np_random (world0 0))).1 = S754_zero false ∧
  weighted_pick [S754_zero false; half] (world0 0)
    = (Return 0, set_np_random (random_sample (np_random (world0 0))).2
                   (world0 0)).
Proof.
  assert (Hnonneg : Forall (λ x, float_nonneg x = true)
                           [S754_zero false; half])
    by (by repeat constructor).
  split; [exact Hnonneg|]. split; [reflexivity|].
  apply (weighted_pick_zero_target [S754_zero false; half] (world0 0) Hnonneg).
  reflexivity.
Defined.

(** X8 on the small instance: no epoch. *)
Lemma train_unbound_loop_variable_witness :
  train model data_loader 0 configured = (Raise NameError, configured).
Proof.
  apply (train_unbound_loop_variable model data_loader 0 configured).
  left. reflexivity.
Defined.

(** X9 on the small instance: two epochs of two batches. *)
Lemma train_progress_lines_witness :
  0 < 2 ∧ 0 < num_batches data_loader ∧
  ∃ losses sess' w',
    train model data_loader 2 configured = (Return (losses, sess'), w') ∧
    length losses = 2 * num_batches data_loader ∧
    stdout w' =
      stdout configured
      ++ zip_with (progress_line 2 (num_batches data_loader))
           (seq 0 (2 * num_batches data_loader)) losses
      ++ [Line_text "model saved to save/model.ckpt"].
Proof.
  split; [lia|]. split; [vm_compute; lia|].
  apply (train_progress_lines model data_loader 2 configured).
  - lia.
  - vm_compute. lia.
Defined.

(** X10 on the small instance: the checkpoint is numbered 3. *)
Lemma train_checkpoint_step_witness :
  0 < 2 ∧ 0 < num_batches data_loader ∧
  ∃ losses sess' w',
    train model data_loader 2 configured = (Return (losses, sess'), w') ∧
    let prefix :=
      "save/model.ckpt-"
      +:+ pretty (Z.of_nat (2 * num_batches data_loader) - 1)%Z in
    files w' !! "save/checkpoint" = Some (CheckpointIndex prefix) ∧
    files w' !! (prefix +:+ ".index") = Some TensorIndex ∧
    files w' !! (prefix +:+ ".data-00000-of-00001")
      = Some (CheckpointData (sess_params sess')).
Proof.
  split; [lia|]. split; [vm_compute; lia|].
  apply (train_checkpoint_step model data_loader 2 configured).
  - lia.
  - vm_compute. lia.
Defined.

(** X11 on the small instance. *)
Lemma train_writes_only_checkpoint_witness :
  0 < 2 ∧ 0 < num_batches data_loader ∧
  ∃ losses sess' w',
    train model data_loader 2 configured = (Return (losses, sess'), w') ∧
    np_random w' = np_random configured ∧
    tf_random_seed w' = tf_random_seed configured ∧
    let prefix :=
      "save/model.ckpt-"
      +:+ pretty (Z.of_nat (2 * num_batches data_loader) - 1)%Z in
    ∀ path,
      path ≠ "save/checkpoint" →
      path ≠ prefix +:+ ".index" →
      path ≠ prefix +:+ ".data-00000-of-00001" →
      path ≠ prefix +:+ ".meta" →
      files w' !! path = files configured !! path.
Proof.
  split; [lia|]. split; [vm_compute; lia|].
  apply (train_writes_only_checkpoint model data_loader 2 configured).
  - lia.
  - vm_compute. lia.
Defined.

(** X12 on the small instance: a batch size of 0 does not build. *)
Lemma save_config_fails_before_writing_witness :
  graph_builds 0 50 (loader_vocab_size data_loader) 128 1 = false ∧
  ∃ w', save_config data_loader 0 50 (world0 0) = (Raise FrameworkError, w') ∧
        files w' = files (world0 0) ∧ stdout w' = stdout (world0 0).
Proof.
  split; [reflexivity|].
  apply (save_config_fails_before_writing data_loader 0 50 (world0 0)).
  reflexivity.
Defined.

(** A save directory that holds the pickled configuration only. *)
Definition config_only : world :=
  World 0 None []
    {[ "save/config.pkl" :=
         Pickled (Py_tuple [Py_int 32; Py_int 50; Py_int 2]) ]} [].

(** X13 on the small instance: an empty directory, and a directory with
    the configuration only. *)
Lemma sample_missing_pickle_witness :
  files (world0 0) !! "save/config.pkl" = None ∧
  sample 3 "ab" (world0 0)
    = (Raise IOError, set_tf_random_seed (Some 100%Z) (world0 0)) ∧
  files config_only !! "save/chars_vocab.pkl" = None ∧
  sample 3 "ab" config_only
    = (Raise IOError, set_tf_random_seed (Some 100%Z) config_only).
Proof.
  split; [reflexivity|]. split; [|split; [reflexivity|]].
  - apply (proj1 (sample_missing_pickle 3 "ab" (world0 0))). reflexivity.
  - apply (proj2 (sample_missing_pickle 3 "ab" config_only)
             (Py_tuple [Py_int 32; Py_int 50; Py_int 2]) 32%Z 50%Z 2%Z);
      reflexivity.
Defined.


(** X16 on the small instance. *)
Lemma Model_sample_returns_prime_and_count_witness :
  Model_sample sess chars vocab 3 "ab" (world0 1)
    = (Return "abaab", (Model_sample sess chars vocab 3 "ab" (world0 1)).2) ∧
  ∃ generated,
    "abaab" = "ab" +:+ generated ∧
    String.length generated = Z.to_nat 3 ∧
    np_random (Model_sample sess chars vocab 3 "ab" (world0 1)).2
      = draws (Z.to_nat 3) (np_random (world0 1)).
Proof.
  assert (Hrun : Model_sample sess chars vocab 3 "ab" (world0 1)
    = (Return "abaab", (Model_sample sess chars vocab 3 "ab" (world0 1)).2))
    by reflexivity.
  split; [exact Hrun|].
  exact (proj2 (Model_sample_returns_prime_and_count sess chars vocab 3 "ab"
                  "abaab" (world0 1) _ Hrun)).
Defined.

(** A save directory whose checkpoint index names no file. *)
Definition empty_index : world :=
  World 0 None []
    (<["save/checkpoint" := CheckpointIndex ""]> (files configured)) [].

(** X17 on the small instance. *)
Lemma sample_empty_checkpoint_path_witness :
  files empty_index !! path_join save_dir "checkpoint"
    = Some (CheckpointIndex "") ∧
  sample 3 "ab" empty_index
    = (Raise ValueError, set_tf_random_seed (Some 100%Z) empty_index).
Proof.
  split; [reflexivity|].
  apply (sample_empty_checkpoint_path 3 "ab" empty_index
           (Py_tuple [Py_int 32; Py_int 50; Py_int 2])
           (Py_tuple [Py_chars chars; Py_dict vocab]) 32 50 2 chars vocab);
    reflexivity.
Defined.

(** X14 on the small instance: sampling on the trained directory leaves
    the pickled configuration in place. *)
Lemma sample_writes_only_sample_txt_witness :
  "save/config.pkl" ≠ "save/sample.txt" ∧
  tf_random_seed (sample 3 "ab" trained).2 = Some 100%Z ∧
  files (sample 3 "ab" trained).2 !! "save/config.pkl"
    = files trained !! "save/config.pkl".
Proof.
  split; [done|].
  destruct (sample_writes_only_sample_txt 3 "ab" trained) as [Hseed Hfiles].
  split; [exact Hseed|]. apply Hfiles. done.
Defined.
